(** * Scholarship evaluation pipeline: a shallow embedding

    The development follows two source files of the repository:
    - [services/evaluationService.js]: [extractText], [loadRules],
      [generateMockEvaluation], [evaluateWithAI], [processApplication];
    - the applications router (POST /submit): validation, storage upload,
      extraction, evaluation, status derivation, temp-file cleanup.

    JavaScript values are modelled by the inductive type [value]; strings are
    byte strings (the UTF-8 encoding of the JavaScript string); numbers are
    the exact rationals denoted by their literals, extended with NaN and the
    two infinities (rounding to binary64 is not modelled).  Exceptions are
    modelled by the [result] type, the mutable world (temp files, storage
    bucket, applications table) by explicit state passing. *)

From Stdlib Require Import ZArith QArith String Ascii List Bool Lia.
From stdpp Require Import gmap strings list pretty.

Local Open Scope string_scope.
Local Open Scope Z_scope.

(* ===================================================================== *)
(** ** Numbers *)
(* ===================================================================== *)

Inductive number : Type :=
| NaN
| PInf
| NInf
| Fin (q : Q).

Definition num_of_Z (z : Z) : number := Fin (inject_Z z).

(** [a < b] on numbers; any comparison with NaN is false. *)
Definition num_lt (a b : number) : bool :=
  match a, b with
  | NaN, _ | _, NaN => false
  | _, NInf => false
  | NInf, _ => true
  | PInf, _ => false
  | Fin _, PInf => true
  | Fin x, Fin y => negb (Qle_bool y x)
  end.

(** [a <= b] on numbers; any comparison with NaN is false. *)
Definition num_le (a b : number) : bool :=
  match a, b with
  | NaN, _ | _, NaN => false
  | NInf, _ => true
  | _, PInf => true
  | _, NInf => false
  | PInf, Fin _ => false
  | Fin x, Fin y => Qle_bool x y
  end.

(** [a + b] on numbers. *)
Definition num_add (a b : number) : number :=
  match a, b with
  | NaN, _ | _, NaN => NaN
  | PInf, NInf | NInf, PInf => NaN
  | PInf, _ | _, PInf => PInf
  | NInf, _ | _, NInf => NInf
  | Fin x, Fin y => Fin (Qred (x + y))
  end.

Definition num_is_zero (a : number) : bool :=
  match a with
  | Fin x => Qeq_bool x 0
  | _ => false
  end.

(** [m * 10^e] as a reduced rational. *)
Definition decimal (m e : Z) : Q :=
  if 0 <=? e then inject_Z (m * 10 ^ e)
  else Qred (Qmake m (Z.to_pos (10 ^ (- e)))).

(* ===================================================================== *)
(** ** Characters and strings *)
(* ===================================================================== *)

Definition chr (n : N) : ascii := ascii_of_N n.
Definition code (c : ascii) : N := N_of_ascii c.

Definition dquote : ascii := chr 34.
Definition backslash : ascii := chr 92.
Definition LF : ascii := chr 10.

Definition str1 (c : ascii) : string := String c EmptyString.

Definition is_digit (c : ascii) : bool :=
  (48 <=? code c)%N && (code c <=? 57)%N.

Definition digit_val (c : ascii) : Z := Z.of_N (code c) - 48.

(** Value of a hexadecimal digit, if it is one. *)
Definition hex_val (c : ascii) : option Z :=
  let n := code c in
  if (48 <=? n)%N && (n <=? 57)%N then Some (Z.of_N n - 48)
  else if (65 <=? n)%N && (n <=? 70)%N then Some (Z.of_N n - 55)
  else if (97 <=? n)%N && (n <=? 102)%N then Some (Z.of_N n - 87)
  else None.

(** Longest prefix of characters satisfying [p], and the rest. *)
Fixpoint span (p : ascii -> bool) (s : string) : string * string :=
  match s with
  | String c r =>
      if p c then let '(a, b) := span p r in (String c a, b)
      else (EmptyString, s)
  | EmptyString => (EmptyString, EmptyString)
  end.

(** Value of a string of digits in radix [radix], most significant first. *)
Fixpoint digits_val (radix : Z) (dv : ascii -> Z) (acc : Z) (s : string) : Z :=
  match s with
  | String c r => digits_val radix dv (acc * radix + dv c) r
  | EmptyString => acc
  end.

Definition dec_val (s : string) : Z := digits_val 10 digit_val 0 s.

Fixpoint starts_with (p s : string) : option string :=
  match p with
  | EmptyString => Some s
  | String c p' =>
      match s with
      | String d s' => if Ascii.eqb c d then starts_with p' s' else None
      | EmptyString => None
      end
  end.

Definition bytes (l : list N) : string :=
  fold_right (fun n s => String (chr n) s) EmptyString l.

(** The white space and line terminator code points of ECMAScript, as UTF-8:
    TAB, LF, VT, FF, CR, SP, U+00A0, U+1680, U+2000..U+200A, U+2028, U+2029,
    U+202F, U+205F, U+3000, U+FEFF. *)
Definition white_space : list string :=
  map bytes
    (app [[9]; [10]; [11]; [12]; [13]; [32]; [194; 160]; [225; 154; 128]]
    (app (map (fun k => [226; 128; k])
              [128; 129; 130; 131; 132; 133; 134; 135; 136; 137; 138])
         [[226; 128; 168]; [226; 128; 169]; [226; 128; 175]; [226; 129; 159];
          [227; 128; 128]; [239; 187; 191]]))%N.

(** Strip one leading occurrence of one of [ps], if any. *)
Fixpoint strip_one (ps : list string) (s : string) : option string :=
  match ps with
  | p :: ps' =>
      match starts_with p s with
      | Some r => Some r
      | None => strip_one ps' s
      end
  | [] => None
  end.

(** Strip leading occurrences of [ps]; each round removes at least one byte,
    so [String.length s] rounds are enough. *)
Fixpoint strip_many (n : nat) (ps : list string) (s : string) : string :=
  match n with
  | O => s
  | S n' =>
      match strip_one ps s with
      | Some r => strip_many n' ps r
      | None => s
      end
  end.

(** [String.prototype.trimStart]. *)
Definition trimStart (s : string) : string :=
  strip_many (String.length s) white_space s.

(** [String.prototype.trim]. *)
Definition trim (s : string) : string :=
  let t := trimStart s in
  String.rev (strip_many (String.length t) (map String.rev white_space) (String.rev t)).

(* ===================================================================== *)
(** ** [parseInt] and [parseFloat] *)
(* ===================================================================== *)

(** Optional sign: returns whether it is a minus, and the rest. *)
Definition take_sign (s : string) : bool * string :=
  match s with
  | String "-" r => (true, r)
  | String "+" r => (false, r)
  | _ => (false, s)
  end.

Definition is_hex_digit (c : ascii) : bool :=
  match hex_val c with Some _ => true | None => false end.

Definition hex_digit_val (c : ascii) : Z :=
  match hex_val c with Some v => v | None => 0 end.

(** [parseInt(string)] with the radix left undefined. *)
Definition parseInt (input : string) : number :=
  let '(neg, s) := take_sign (trimStart input) in
  let '(radix, s) :=
    match s with
    | String "0" (String "x" r) | String "0" (String "X" r) => (16, r)
    | _ => (10, s)
    end in
  let '(ds, _) := span (if radix =? 16 then is_hex_digit else is_digit) s in
  match ds with
  | EmptyString => NaN
  | _ =>
      let v := digits_val radix (if radix =? 16 then hex_digit_val else digit_val) 0 ds in
      num_of_Z (if neg then - v else v)
  end.

(** The longest prefix of [s] that is a decimal literal (an optional sign,
    then [Infinity] or digits with an optional fraction and exponent), with
    its value and the rest of [s]. *)
Definition scan_decimal (s : string) : option (number * string) :=
  let '(neg, s) := take_sign s in
  match starts_with "Infinity" s with
  | Some r => Some (if neg then NInf else PInf, r)
  | None =>
      let '(ip, r1) := span is_digit s in
      let '(fp, r2) :=
        match r1 with
        | String "." r => span is_digit r
        | _ => (EmptyString, r1)
        end in
      match ip, fp with
      | EmptyString, EmptyString => None
      | _, _ =>
          let '(ex, r3) :=
            match r2 with
            | String "e" r | String "E" r =>
                let '(eneg, r') := take_sign r in
                let '(ed, r'') := span is_digit r' in
                match ed with
                | EmptyString => (0, r2)
                | _ => (if eneg then - dec_val ed else dec_val ed, r'')
                end
            | _ => (0, r2)
            end in
          let m := dec_val (ip +:+ fp) in
          Some (Fin (decimal (if neg then - m else m)
                             (ex - Z.of_nat (String.length fp))), r3)
      end
  end.

(** [parseFloat(string)]. *)
Definition parseFloat (input : string) : number :=
  match scan_decimal (trimStart input) with
  | Some (n, _) => n
  | None => NaN
  end.

(** A whole string of digits in the given radix, for the literals [0x..],
    [0o..] and [0b..]. *)
Definition radix_literal (radix : Z) (s : string) : number :=
  let ok c := match hex_val c with Some v => v <? radix | None => false end in
  match span ok s with
  | (String c ds, EmptyString) =>
      num_of_Z (digits_val radix hex_digit_val 0 (String c ds))
  | _ => NaN
  end.

(** ToNumber applied to a string. *)
Definition StringToNumber (s : string) : number :=
  match trim s with
  | EmptyString => num_of_Z 0
  | String "0" (String "x" r) | String "0" (String "X" r) => radix_literal 16 r
  | String "0" (String "o" r) | String "0" (String "O" r) => radix_literal 8 r
  | String "0" (String "b" r) | String "0" (String "B" r) => radix_literal 2 r
  | t =>
      match scan_decimal t with
      | Some (n, EmptyString) => n
      | _ => NaN
      end
  end.

(* ===================================================================== *)
(** ** JavaScript values and exceptions *)
(* ===================================================================== *)

#[warnings="-register-all"] Inductive value : Type :=
| VUndefined
| VNull
| VBool (b : bool)
| VNum (n : number)
| VStr (s : string)
| VArr (elems : list value)
| VObj (props : list (string * value)).

(** A thrown exception: its constructor name and its [message]. *)
Record exn : Type := mkExn { exn_name : string; exn_message : string }.

Inductive result (A : Type) : Type :=
| Ok (a : A)
| Throw (e : exn).

Arguments Ok {A} a.
Arguments Throw {A} e.

#[global] Instance result_ret : MRet result := fun A a => Ok a.

#[global] Instance result_bind : MBind result := fun A B k r =>
  match r with
  | Ok a => k a
  | Throw e => Throw e
  end.

Definition TypeError (msg : string) : exn := mkExn "TypeError" msg.
Definition SyntaxError (msg : string) : exn := mkExn "SyntaxError" msg.
Definition RangeError (msg : string) : exn := mkExn "RangeError" msg.

(** [o[k] = v] on the own properties of an object, kept in insertion order. *)
Fixpoint obj_set (k : string) (v : value) (o : list (string * value))
  : list (string * value) :=
  match o with
  | [] => [(k, v)]
  | (k', v') :: r =>
      if String.eqb k k' then (k, v) :: r else (k', v') :: obj_set k v r
  end.

Fixpoint obj_get (k : string) (o : list (string * value)) : value :=
  match o with
  | [] => VUndefined
  | (k', v) :: r => if String.eqb k k' then v else obj_get k r
  end.

(** Property read [v.k] for a name [k] that no prototype defines (every
    name read by the program is of this kind): the own property of an
    object, [undefined] on other values, a [TypeError] on [undefined] and
    [null]. *)
Definition get_prop (v : value) (k : string) : result value :=
  match v with
  | VUndefined | VNull =>
      Throw (TypeError ("Cannot read properties of undefined or null (reading '" +:+ k +:+ "')"))
  | VObj o => Ok (obj_get k o)
  | _ => Ok VUndefined
  end.

(** ToBoolean. *)
Definition truthy (v : value) : bool :=
  match v with
  | VUndefined | VNull => false
  | VBool b => b
  | VNum NaN => false
  | VNum n => negb (num_is_zero n)
  | VStr s => negb (String.eqb s "")
  | VArr _ | VObj _ => true
  end.

(* ===================================================================== *)
(** ** [JSON.parse] *)
(* ===================================================================== *)

Definition is_json_ws (c : ascii) : bool :=
  let n := code c in
  ((n =? 32) || (n =? 9) || (n =? 10) || (n =? 13))%N.

Fixpoint skip_ws (s : string) : string :=
  match s with
  | String c r => if is_json_ws c then skip_ws r else s
  | EmptyString => EmptyString
  end.

Definition zbytes (l : list Z) : string := bytes (map Z.to_N l).

(** UTF-8 encoding of a code point (a lone surrogate is encoded the same
    way, on three bytes). *)
Definition utf8 (cp : Z) : string :=
  if cp <? 128 then zbytes [cp]
  else if cp <? 2048 then zbytes [192 + cp / 64; 128 + cp mod 64]
  else if cp <? 65536 then
    zbytes [224 + cp / 4096; 128 + (cp / 64) mod 64; 128 + cp mod 64]
  else
    zbytes [240 + cp / 262144; 128 + (cp / 4096) mod 64;
            128 + (cp / 64) mod 64; 128 + cp mod 64].

Definition is_high_surrogate (u : Z) : bool := (55296 <=? u) && (u <=? 56319).
Definition is_low_surrogate (u : Z) : bool := (56320 <=? u) && (u <=? 57343).

(** A pending high surrogate that found no partner. *)
Definition flush (hi : option Z) : string :=
  match hi with
  | Some h => utf8 h
  | None => EmptyString
  end.

Definition simple_escape (c : ascii) : option string :=
  if Ascii.eqb c dquote then Some (str1 dquote)
  else if Ascii.eqb c backslash then Some (str1 backslash)
  else if Ascii.eqb c "/" then Some "/"
  else if Ascii.eqb c "b" then Some (bytes [8%N])
  else if Ascii.eqb c "f" then Some (bytes [12%N])
  else if Ascii.eqb c "n" then Some (bytes [10%N])
  else if Ascii.eqb c "r" then Some (bytes [13%N])
  else if Ascii.eqb c "t" then Some (bytes [9%N])
  else None.

Definition hex4 (a b c d : ascii) : option Z :=
  match hex_val a, hex_val b, hex_val c, hex_val d with
  | Some x, Some y, Some z, Some w => Some (((x * 16 + y) * 16 + z) * 16 + w)
  | _, _, _, _ => None
  end.

Definition prepend (pre : string) (r : option (string * string))
  : option (string * string) :=
  match r with
  | Some (t, rest) => Some (pre +:+ t, rest)
  | None => None
  end.

(** The characters of a JSON string after its opening quote, up to and
    including the closing quote.  [hi] is a high surrogate read from a
    [\uXXXX] escape and waiting for its low surrogate. *)
Fixpoint parse_chars (hi : option Z) (s : string) : option (string * string) :=
  match s with
  | EmptyString => None
  | String c r =>
      if Ascii.eqb c dquote then Some (flush hi, r)
      else if Ascii.eqb c backslash then
        match r with
        | String e r' =>
            match simple_escape e with
            | Some b => prepend (flush hi +:+ b) (parse_chars None r')
            | None =>
                if Ascii.eqb e "u" then
                  match r' with
                  | String h1 (String h2 (String h3 (String h4 r''))) =>
                      match hex4 h1 h2 h3 h4 with
                      | Some u =>
                          match hi with
                          | Some h =>
                              if is_low_surrogate u then
                                prepend (utf8 (65536 + (h - 55296) * 1024 + (u - 56320)))
                                        (parse_chars None r'')
                              else if is_high_surrogate u then
                                prepend (utf8 h) (parse_chars (Some u) r'')
                              else prepend (utf8 h +:+ utf8 u) (parse_chars None r'')
                          | None =>
                              if is_high_surrogate u then parse_chars (Some u) r''
                              else prepend (utf8 u) (parse_chars None r'')
                          end
                      | None => None
                      end
                  | _ => None
                  end
                else None
            end
        | EmptyString => None
        end
      else if (code c <? 32)%N then None
      else prepend (flush hi +:+ str1 c) (parse_chars None r)
  end.

(** The parts of a JSON number: an optional minus sign, an integer part
    without leading zero, an optional fraction (a dot and at least one
    digit), an optional exponent (e or E, an optional sign, at least one
    digit). *)
Definition json_minus (s : string) : bool * string :=
  match s with
  | String "-" r => (true, r)
  | _ => (false, s)
  end.

Definition json_frac (s : string) : option (string * string) :=
  match s with
  | String "." r =>
      match span is_digit r with
      | (EmptyString, _) => None
      | (fp, r2) => Some (fp, r2)
      end
  | _ => Some (EmptyString, s)
  end.

Definition json_exp (s : string) : option (Z * string) :=
  match s with
  | String "e" r | String "E" r =>
      let '(eneg, r') := take_sign r in
      match span is_digit r' with
      | (EmptyString, _) => None
      | (ed, r3) => Some (if eneg then - dec_val ed else dec_val ed, r3)
      end
  | _ => Some (0, s)
  end.

Definition parse_number (s : string) : option (number * string) :=
  let '(neg, s1) := json_minus s in
  let '(ip, r1) := span is_digit s1 in
  match ip with
  | EmptyString => None
  | String "0" (String _ _) => None
  | _ =>
      match json_frac r1 with
      | None => None
      | Some (fp, r2) =>
          match json_exp r2 with
          | None => None
          | Some (ex, r3) =>
              let m := dec_val (ip +:+ fp) in
              Some (Fin (decimal (if neg then - m else m)
                                 (ex - Z.of_nat (String.length fp))), r3)
          end
      end
  end.

Inductive presult : Type :=
| POk (v : value) (rest : string)
| PSyntax
| PFuel.

(** Recursive descent over the JSON grammar.  [parse_elements] reads the
    elements of an array after its opening bracket, [parse_members] the
    members of an object after its opening brace; a repeated key overwrites
    the earlier member. *)
Fixpoint parse_value (fuel : nat) (s : string) {struct fuel} : presult :=
  match fuel with
  | O => PFuel
  | S f =>
      match skip_ws s with
      | EmptyString => PSyntax
      | String c r =>
          if Ascii.eqb c "{" then
            match skip_ws r with
            | String "}" r' => POk (VObj []) r'
            | _ => parse_members f [] r
            end
          else if Ascii.eqb c "[" then
            match skip_ws r with
            | String "]" r' => POk (VArr []) r'
            | _ => parse_elements f [] r
            end
          else if Ascii.eqb c dquote then
            match parse_chars None r with
            | Some (t, r') => POk (VStr t) r'
            | None => PSyntax
            end
          else
            match starts_with "true" (String c r) with
            | Some r' => POk (VBool true) r'
            | None =>
            match starts_with "false" (String c r) with
            | Some r' => POk (VBool false) r'
            | None =>
            match starts_with "null" (String c r) with
            | Some r' => POk VNull r'
            | None =>
            match parse_number (String c r) with
            | Some (n, r') => POk (VNum n) r'
            | None => PSyntax
            end end end end
      end
  end
with parse_elements (fuel : nat) (acc : list value) (s : string) {struct fuel}
  : presult :=
  match fuel with
  | O => PFuel
  | S f =>
      match parse_value f s with
      | POk v r =>
          match skip_ws r with
          | String "," r' => parse_elements f (acc ++ [v])%list r'
          | String "]" r' => POk (VArr (acc ++ [v])%list) r'
          | _ => PSyntax
          end
      | e => e
      end
  end
with parse_members (fuel : nat) (acc : list (string * value)) (s : string)
  {struct fuel} : presult :=
  match fuel with
  | O => PFuel
  | S f =>
      match skip_ws s with
      | String c r =>
          if Ascii.eqb c dquote then
            match parse_chars None r with
            | Some (k, r1) =>
                match skip_ws r1 with
                | String ":" r2 =>
                    match parse_value f r2 with
                    | POk v r3 =>
                        match skip_ws r3 with
                        | String "," r4 => parse_members f (obj_set k v acc) r4
                        | String "}" r4 => POk (VObj (obj_set k v acc)) r4
                        | _ => PSyntax
                        end
                    | e => e
                    end
                | _ => PSyntax
                end
            | None => PSyntax
            end
          else PSyntax
      | EmptyString => PSyntax
      end
  end.

(** [JSON.parse(text)].  The recursion budget is twice the length of the
    text plus one, which is always enough (see [parse_value_enough]). *)
Definition JSON_parse (text : string) : result value :=
  match parse_value (2 * String.length text + 1) text with
  | POk v rest =>
      match skip_ws rest with
      | EmptyString => Ok v
      | _ => Throw (SyntaxError "Unexpected non-whitespace character after JSON")
      end
  | PSyntax => Throw (SyntaxError "Unexpected token in JSON")
  | PFuel => Throw (RangeError "Maximum call stack size exceeded")
  end.

(** Writes a text with single quotes standing for double quotes. *)
Fixpoint dq (s : string) : string :=
  match s with
  | String c r => String (if Ascii.eqb c "'" then dquote else c) (dq r)
  | EmptyString => EmptyString
  end.

(* ===================================================================== *)
(** ** The host: built-ins that format numbers, and external collaborators *)
(* ===================================================================== *)

(** One row of the [scholarship_rules] table. *)
Record RuleRow : Type := mkRuleRow {
  rule_key : string;
  rule_value : value;
  description : value
}.

(** The object handed over by the router in income-verification mode. *)
Record IncomeVerification : Type := mkIncomeVerification {
  motherIncome : number;
  fatherIncome : number;
  motherText : string;
  fatherText : string;
  reportText : string;
  combinedText : string
}.

(** The values interpolated into the income-verification section of the
    prompt (its fixed text is left out). *)
Record VerificationSection : Type := mkVerificationSection {
  claimed_mother : string;
  claimed_father : string;
  claimed_total : string;
  shown_threshold : string;
  mother_certificate_text : string;
  father_certificate_text : string
}.

(** The values interpolated into the prompt of [evaluateWithAI], in the
    order of the template (its fixed text is left out). *)
Record Prompt : Type := mkPrompt {
  rulesText : string;
  incomeVerificationSection : option VerificationSection;
  documentText : string;
  income_threshold : string;
  gwa_threshold : string
}.

(** The request sent to the chat-completion endpoint. *)
Record ChatRequest : Type := mkChatRequest {
  model : string;
  system_content : string;
  user_content : Prompt;
  temperature : Q;
  response_format : string
}.

(** An object sent to the storage bucket. *)
Record StoredObject : Type := mkStoredObject {
  object_path : string;
  object_body : string;
  contentType : string
}.

Inductive ApplicationStatus : Type :=
| manual_review
| qualified
| disqualified.

(** A row inserted into the [applications] table. *)
Record ApplicationRow : Type := mkApplicationRow {
  row_user_id : string;
  row_mother_certificate_url : string;
  row_father_certificate_url : string;
  row_report_card_url : string;
  row_mother_income : number;
  row_father_income : number;
  row_extracted_text : string;
  row_evaluation_result : value;
  row_qualified : value;
  row_confidence_score : value;
  row_status : ApplicationStatus
}.

(** The temp directory of multer: path to file content. *)
Abbreviation FileSystem := (gmap string string).

Class Host : Type := {
  (** Number::toString and Number.prototype.toLocaleString. *)
  Number_toString : number -> string;
  Number_toLocaleString : number -> string;
  (** [process.env.USE_MOCK_EVALUATION === 'true']. *)
  USE_MOCK_MODE : bool;
  (** [process.env.GROQ_API_KEY]. *)
  GROQ_API_KEY : option string;
  (** The chat-completion endpoint of Groq: the content of the first choice
      of the completion, or a thrown error. *)
  chat_completions_create : ChatRequest -> result string;
  (** [pdf-parse]: the text layer of a PDF buffer. *)
  pdfParse : string -> result string;
  (** [Tesseract.recognize(path, lang)]: the recognised text. *)
  Tesseract_recognize : FileSystem -> option string -> string -> result string;
  (** The rows selected from [scholarship_rules] ([null] when the query
      fails). *)
  scholarship_rules : option (list RuleRow);
  (** The error, if any, of a storage upload and of an insert. *)
  storage_upload_error : StoredObject -> option exn;
  applications_insert_error : ApplicationRow -> option exn;
  (** [Date.now()]. *)
  Date_now : number
}.

(* ===================================================================== *)
(** ** services/evaluationService.js *)
(* ===================================================================== *)

Section EvaluationService.
Context `{Host}.

(** The Groq client: [null] in mock mode and without an API key. *)
Definition groq : option (ChatRequest -> result string) :=
  if USE_MOCK_MODE
     || match GROQ_API_KEY with
        | Some key => String.eqb key ""
        | None => true
        end
  then None
  else Some chat_completions_create.

Fixpoint join (sep : string) (l : list string) : string :=
  match l with
  | [] => EmptyString
  | [x] => x
  | x :: r => x +:+ sep +:+ join sep r
  end.

(** ToString; an array is joined with commas, [null] and [undefined]
    elements giving the empty string. *)
Fixpoint ToString (v : value) : string :=
  match v with
  | VUndefined => "undefined"
  | VNull => "null"
  | VBool true => "true"
  | VBool false => "false"
  | VNum n => Number_toString n
  | VStr s => s
  | VArr l =>
      join ","
        (map (fun e => match e with
                       | VUndefined | VNull => EmptyString
                       | _ => ToString e
                       end) l)
  | VObj _ => "[object Object]"
  end.

(** ToNumber. *)
Definition ToNumber (v : value) : number :=
  match v with
  | VUndefined => NaN
  | VNull => num_of_Z 0
  | VBool true => num_of_Z 1
  | VBool false => num_of_Z 0
  | VNum n => n
  | VStr s => StringToNumber s
  | VArr _ | VObj _ => StringToNumber (ToString v)
  end.

(** [v < n] for a number [n]. *)
Definition js_lt_num (v : value) (n : number) : bool := num_lt (ToNumber v) n.

(** [v || d]. *)
Definition or_else (v d : value) : value := if truthy v then v else d.

Definition readFileSync (fs : FileSystem) (path : option string) : result string :=
  match path with
  | None => Throw (TypeError "The path argument must be of type string")
  | Some p =>
      match fs !! p with
      | Some content => Ok content
      | None => Throw (mkExn "Error" ("ENOENT: no such file or directory, open '" +:+ p +:+ "'"))
      end
  end.

(** [extractText(imagePath, mimetype)]. *)
Definition extractText (fs : FileSystem) (imagePath mimetype : option string)
  : result string :=
  if decide (mimetype = Some "text/plain") then
    text ← readFileSync fs imagePath;
    mret (trim text)
  else if decide (mimetype = Some "application/pdf") then
    dataBuffer ← readFileSync fs imagePath;
    text ← pdfParse dataBuffer;
    mret (trim text)
  else
    text ← Tesseract_recognize fs imagePath "eng";
    mret (trim text).

(** [loadRules()]: the rows folded into one object, a later row overwriting
    an earlier one with the same key. *)
Definition loadRules : result (list (string * value)) :=
  match scholarship_rules with
  | None => Throw (TypeError "Cannot read properties of null (reading 'reduce')")
  | Some rules =>
      Ok (fold_left (fun acc r => obj_set (rule_key r) (rule_value r) acc) rules [])
  end.

Definition mockMotherIncome : number := num_of_Z 12000.
Definition mockFatherIncome : number := num_of_Z 13000.
Definition mockTotalIncome : number := num_add mockMotherIncome mockFatherIncome.
Definition mockGWA : number := Fin (5 # 2).

(** [parseInt(rules.max_monthly_income || '30000')]. *)
Definition maxIncome (rules : list (string * value)) : number :=
  parseInt (ToString (or_else (obj_get "max_monthly_income" rules) (VStr "30000"))).

(** [parseFloat(rules.max_gwa || '3.0')]. *)
Definition maxGWA (rules : list (string * value)) : number :=
  parseFloat (ToString (or_else (obj_get "max_gwa" rules) (VStr "3.0"))).

(** [generateMockEvaluation(extractedText, rules)]. *)
Definition generateMockEvaluation (extractedText : string)
  (rules : list (string * value)) : value :=
  let incomePass := num_le mockTotalIncome (maxIncome rules) in
  let gwaPass := num_le mockGWA (maxGWA rules) in
  let qualified := incomePass && gwaPass in
  VObj [
    ("qualified", VBool qualified);
    ("extracted_data", VObj [
      ("applicant_name", VStr "Test Applicant (Mock)");
      ("mother_income", VNum mockMotherIncome);
      ("father_income", VNum mockFatherIncome);
      ("total_income", VNum mockTotalIncome);
      ("gwa", VNum mockGWA);
      ("enrollment_status", VStr "Currently Enrolled");
      ("school", VStr "Mock University");
      ("course", VStr "Computer Science")
    ]);
    ("evaluation", VObj [
      ("income_check", VObj [
        ("passed", VBool incomePass);
        ("mother_value_found", VNum mockMotherIncome);
        ("father_value_found", VNum mockFatherIncome);
        ("total_value_found", VNum mockTotalIncome);
        ("threshold", VNum (maxIncome rules));
        ("income_verified", VBool true);
        ("reason", VStr (
          if incomePass
          then "Combined income ₱" +:+ Number_toLocaleString mockTotalIncome
               +:+ " is below threshold ₱" +:+ Number_toLocaleString (maxIncome rules)
          else "Combined income ₱" +:+ Number_toLocaleString mockTotalIncome
               +:+ " exceeds threshold ₱" +:+ Number_toLocaleString (maxIncome rules)))
      ]);
      ("gwa_check", VObj [
        ("passed", VBool gwaPass);
        ("value_found", VNum mockGWA);
        ("threshold", VNum (maxGWA rules));
        ("reason", VStr (
          if gwaPass
          then "GWA " +:+ Number_toString mockGWA +:+ " meets requirement (≤"
               +:+ Number_toString (maxGWA rules) +:+ ")"
          else "GWA " +:+ Number_toString mockGWA +:+ " does not meet requirement (>"
               +:+ Number_toString (maxGWA rules) +:+ ")"))
      ])
    ]);
    ("disqualification_reasons", VArr (
      if qualified then []
      else ((if negb incomePass then [VStr "Combined income exceeds limit"] else [])
            ++ (if negb gwaPass then [VStr "GWA below requirement"] else []))%list));
    ("confidence_score", VNum (num_of_Z 95));
    ("ocr_quality", VStr "good");
    ("notes", VStr "⚠️ MOCK EVALUATION - This is simulated data for testing without OpenAI API")
  ].

(** The prompt of [evaluateWithAI]. *)
Definition prompt (extractedText : string) (rules : list (string * value))
  (incomeVerification : option IncomeVerification) : Prompt :=
  let threshold := ToString (or_else (obj_get "max_monthly_income" rules) (VStr "30000")) in
  {| rulesText :=
       join (str1 LF) (map (fun '(k, v) => "- " +:+ k +:+ ": " +:+ ToString v) rules);
     incomeVerificationSection :=
       match incomeVerification with
       | Some iv =>
           Some {| claimed_mother := Number_toLocaleString (motherIncome iv);
                   claimed_father := Number_toLocaleString (fatherIncome iv);
                   claimed_total :=
                     Number_toLocaleString (num_add (motherIncome iv) (fatherIncome iv));
                   shown_threshold := threshold;
                   mother_certificate_text := motherText iv;
                   father_certificate_text := fatherText iv |}
       | None => None
       end;
     documentText :=
       match incomeVerification with
       | Some iv => reportText iv
       | None => extractedText
       end;
     income_threshold := threshold;
     gwa_threshold := ToString (or_else (obj_get "max_gwa" rules) (VStr "3.0")) |}.

(** The argument of [groq.chat.completions.create]. *)
Definition chat_request (extractedText : string) (rules : list (string * value))
  (incomeVerification : option IncomeVerification) : ChatRequest :=
  {| model := "llama-3.3-70b-versatile";
     system_content :=
       "You are a precise document evaluator. Always respond with valid JSON only. No markdown, no backticks.";
     user_content := prompt extractedText rules incomeVerification;
     temperature := 1 # 10;
     response_format := "json_object" |}.

(** [evaluateWithAI(extractedText, rules, incomeVerification)]: in mock mode
    the mock evaluation; otherwise the content returned by the engine, parsed
    by [JSON.parse] and returned as it is. *)
Definition evaluateWithAI (extractedText : string) (rules : list (string * value))
  (incomeVerification : option IncomeVerification) : result value :=
  if USE_MOCK_MODE then Ok (generateMockEvaluation extractedText rules)
  else
    match groq with
    | None => Throw (TypeError "Cannot read properties of null (reading 'chat')")
    | Some create =>
        content ← create (chat_request extractedText rules incomeVerification);
        JSON_parse content
    end.

(** What [processApplication] resolves to: each field is present or not. *)
Record Processed : Type := mkProcessed {
  extractedText : option string;
  evaluation : option value
}.

(** A path is truthy when it is a non-empty string. *)
Definition truthy_path (p : option string) : bool :=
  match p with
  | Some s => negb (String.eqb s "")
  | None => false
  end.

(** [processApplication(imagePath, mimetype, incomeVerification, extractOnly)].
    In the last scenario the extraction and the rule load run together; an
    error of the extraction is reported first here. *)
Definition processApplication (fs : FileSystem) (imagePath mimetype : option string)
  (incomeVerification : option IncomeVerification) (extractOnly : bool)
  : result Processed :=
  if extractOnly && truthy_path imagePath then
    text ← extractText fs imagePath mimetype;
    mret {| extractedText := Some text; evaluation := None |}
  else
    match incomeVerification with
    | Some iv =>
        rules ← loadRules;
        ev ← evaluateWithAI
                (if String.eqb (combinedText iv) "" then reportText iv else combinedText iv)
                rules (Some iv);
        mret {| extractedText := None; evaluation := Some ev |}
    | None =>
        text ← extractText fs imagePath mimetype;
        rules ← loadRules;
        ev ← evaluateWithAI text rules None;
        mret {| extractedText := Some text; evaluation := Some ev |}
    end.

End EvaluationService.

(* ===================================================================== *)
(** ** The applications router: POST /submit *)
(* ===================================================================== *)

(** A file stored by multer in the temp directory. *)
Record UploadedFile : Type := mkUploadedFile {
  originalname : string;
  mimetype : string;
  path : string
}.

(** [req.files]: each field holds at most one file. *)
Record Files : Type := mkFiles {
  mother_certificate : option UploadedFile;
  father_certificate : option UploadedFile;
  report_card : option UploadedFile
}.

Record Request : Type := mkRequest {
  files : option Files;
  mother_income : option string;
  father_income : option string;
  user_id : string
}.

Inductive ResponseBody : Type :=
| ErrorBody (error : string)
| SuccessBody (application : ApplicationRow).

Record Response : Type := mkResponse {
  status_code : Z;
  body : ResponseBody
}.

(** What the handler reads and writes: the temp directory, the storage
    bucket and the applications table. *)
Record World : Type := mkWorld {
  temp_files : FileSystem;
  bucket : list StoredObject;
  applications : list ApplicationRow
}.

(** Computations of the handler: they may change the world and may throw;
    what was written before a throw stays written. *)
Definition M (A : Type) : Type := World -> result A * World.

#[global] Instance M_ret : MRet M := fun A a w => (Ok a, w).

#[global] Instance M_bind : MBind M := fun A B k m w =>
  match m w with
  | (Ok a, w') => k a w'
  | (Throw e, w') => (Throw e, w')
  end.

Section Router.
Context `{Host}.

(** A computation that only reads the temp directory. *)
Definition reading {A : Type} (f : FileSystem -> result A) : M A :=
  fun w => (f (temp_files w), w).

(** [supabase.storage.from('documents').upload(path, buffer, { contentType })]
    followed by the throw of its error. *)
Definition upload (o : StoredObject) : M unit :=
  fun w =>
    match storage_upload_error o with
    | Some e => (Throw e, w)
    | None =>
        (Ok tt, {| temp_files := temp_files w;
                   bucket := (bucket w ++ [o])%list;
                   applications := applications w |})
    end.

(** [supabase.from('applications').insert(row).select().single()] followed
    by the throw of its error. *)
Definition insert_application (row : ApplicationRow) : M ApplicationRow :=
  fun w =>
    match applications_insert_error row with
    | Some e => (Throw e, w)
    | None =>
        (Ok row, {| temp_files := temp_files w;
                    bucket := bucket w;
                    applications := (applications w ++ [row])%list |})
    end.

(** [if (file && fs.existsSync(file.path)) fs.unlinkSync(file.path)]. *)
Definition unlink_if_exists (file : UploadedFile) (w : World) : World :=
  if decide (is_Some (temp_files w !! path file)) then
    {| temp_files := delete (path file) (temp_files w);
       bucket := bucket w;
       applications := applications w |}
  else w.

(** The content type sent to storage for a file of declared type [m]. *)
Definition storage_content_type (m : string) : string :=
  if decide (m = "text/plain") then "application/pdf" else m.

(** The text of a destructured [extractedText] inside a template literal. *)
Definition text_of (p : Processed) : string :=
  match extractedText p with
  | Some t => t
  | None => "undefined"
  end.

(** The template literal that builds [combinedText]. *)
Definition combined_text (motherText fatherText reportText : string) : string :=
  "Mother's Income Certificate:" +:+ str1 LF +:+ motherText +:+ str1 LF +:+ str1 LF
  +:+ "Father's Income Certificate:" +:+ str1 LF +:+ fatherText +:+ str1 LF +:+ str1 LF
  +:+ "Report Card:" +:+ str1 LF +:+ reportText.

(** The status derived from an evaluation. *)
Definition derive_status (evaluation : value) : result ApplicationStatus :=
  score ← get_prop evaluation "confidence_score";
  if js_lt_num score (num_of_Z 60) then mret manual_review
  else
    q ← get_prop evaluation "qualified";
    mret (if truthy q then qualified else disqualified).

(** The body of the [try] block.  The three extract-only calls are started
    together in the source; here they run in the order mother, father,
    report, so that the error reported is the one of the first that fails in
    this order. *)
Definition submit_try (req : Request) (motherFile fatherFile reportFile : UploadedFile)
  (motherIncome fatherIncome : number) : M ApplicationRow :=
  let timestamp := Date_now in
  (* 1. upload the three files *)
  motherBuffer ← reading (fun fs => readFileSync fs (Some (path motherFile)));
  let motherPath := "documents/" +:+ user_id req +:+ "/mother_income_"
                    +:+ Number_toString timestamp +:+ "_" +:+ originalname motherFile in
  let motherContentType := storage_content_type (mimetype motherFile) in
  _ ← upload {| object_path := motherPath; object_body := motherBuffer;
                contentType := motherContentType |};
  fatherBuffer ← reading (fun fs => readFileSync fs (Some (path fatherFile)));
  let fatherPath := "documents/" +:+ user_id req +:+ "/father_income_"
                    +:+ Number_toString timestamp +:+ "_" +:+ originalname fatherFile in
  let fatherContentType := storage_content_type (mimetype fatherFile) in
  _ ← upload {| object_path := fatherPath; object_body := fatherBuffer;
                contentType := fatherContentType |};
  reportBuffer ← reading (fun fs => readFileSync fs (Some (path reportFile)));
  let reportPath := "documents/" +:+ user_id req +:+ "/report_"
                    +:+ Number_toString timestamp +:+ "_" +:+ originalname reportFile in
  let reportContentType := storage_content_type (mimetype reportFile) in
  _ ← upload {| object_path := reportPath; object_body := reportBuffer;
                contentType := reportContentType |};
  (* 2. extract the text of the three documents *)
  m ← reading (fun fs =>
         processApplication fs (Some (path motherFile)) (Some (mimetype motherFile)) None true);
  f ← reading (fun fs =>
         processApplication fs (Some (path fatherFile)) (Some (mimetype fatherFile)) None true);
  r ← reading (fun fs =>
         processApplication fs (Some (path reportFile)) (Some (mimetype reportFile)) None true);
  let motherText := text_of m in
  let fatherText := text_of f in
  let reportText := text_of r in
  let combinedText := combined_text motherText fatherText reportText in
  (* 3. one evaluation with all documents *)
  p ← reading (fun fs =>
         processApplication fs None None
           (Some {| motherIncome := motherIncome; fatherIncome := fatherIncome;
                    motherText := motherText; fatherText := fatherText;
                    reportText := reportText; combinedText := combinedText |})
           false);
  let evaluation := match evaluation p with Some ev => ev | None => VUndefined end in
  (* 4. save to the database *)
  status ← reading (fun _ => derive_status evaluation);
  q ← reading (fun _ => get_prop evaluation "qualified");
  score ← reading (fun _ => get_prop evaluation "confidence_score");
  insert_application
    {| row_user_id := user_id req;
       row_mother_certificate_url := motherPath;
       row_father_certificate_url := fatherPath;
       row_report_card_url := reportPath;
       row_mother_income := motherIncome;
       row_father_income := fatherIncome;
       row_extracted_text := combinedText;
       row_evaluation_result := evaluation;
       row_qualified := q;
       row_confidence_score := score;
       row_status := status |}.

(** A form field is falsy when it is absent or empty. *)
Definition falsy_field (f : option string) : bool :=
  match f with
  | Some s => String.eqb s ""
  | None => true
  end.

Definition field_text (f : option string) : string :=
  match f with
  | Some s => s
  | None => "undefined"
  end.

(** The handler of POST /submit, after multer has stored the uploads. *)
Definition submit (req : Request) (w : World) : Response * World :=
  match files req with
  | Some {| mother_certificate := Some motherFile;
            father_certificate := Some fatherFile;
            report_card := Some reportFile |} =>
      if falsy_field (mother_income req) || falsy_field (father_income req) then
        ({| status_code := 400;
            body := ErrorBody "Both parent income values are required" |}, w)
      else
        let motherIncome := parseFloat (field_text (mother_income req)) in
        let fatherIncome := parseFloat (field_text (father_income req)) in
        let '(outcome, w') :=
          submit_try req motherFile fatherFile reportFile motherIncome fatherIncome w in
        let response :=
          match outcome with
          | Ok application => {| status_code := 200; body := SuccessBody application |}
          | Throw err =>
              {| status_code := 500;
                 body := ErrorBody (if String.eqb (exn_message err) ""
                                    then "Processing failed" else exn_message err) |}
          end in
        (* finally: clean up the temp files *)
        (response,
         unlink_if_exists reportFile
           (unlink_if_exists fatherFile (unlink_if_exists motherFile w')))
  | _ =>
      ({| status_code := 400;
          body := ErrorBody "All three documents are required (mother certificate, father certificate, and report card)" |},
       w)
  end.

End Router.

(* ===================================================================== *)
(** ** Reading results, and the shape the prompt asks for *)
(* ===================================================================== *)

(** [v.k1.k2...]. *)
Fixpoint get_path (v : value) (ks : list string) : result value :=
  match ks with
  | [] => Ok v
  | k :: ks' => v' ← get_prop v k; get_path v' ks'
  end.

Definition is_bool (v : value) : bool :=
  match v with VBool _ => true | _ => false end.

Definition is_number (v : value) : bool :=
  match v with VNum (Fin _) => true | _ => false end.

Definition is_string (v : value) : bool :=
  match v with VStr _ => true | _ => false end.

Definition is_null (v : value) : bool :=
  match v with VNull => true | _ => false end.

(** An integer between 0 and 100. *)
Definition score_in_range (v : value) : bool :=
  match v with
  | VNum (Fin q) =>
      Pos.eqb (Qden q) 1 && (0 <=? Qnum q) && (Qnum q <=? 100)
  | _ => false
  end.

(** [v] is an object whose property [k] satisfies [p]. *)
Definition has (p : value -> bool) (k : string) (v : value) : bool :=
  match v with
  | VObj o => p (obj_get k o)
  | _ => false
  end.

Definition nullable (p : value -> bool) (v : value) : bool := is_null v || p v.

Definition is_string_array (v : value) : bool :=
  match v with
  | VArr l => forallb is_string l
  | _ => false
  end.

Definition is_ocr_quality (v : value) : bool :=
  match v with
  | VStr s => String.eqb s "good" || String.eqb s "fair" || String.eqb s "poor"
  | _ => false
  end.

(** The JSON object that the prompt of [evaluateWithAI] asks the engine for.
    The program has no validator of its own; this predicate only serves to
    state what it accepts. *)
Definition schema_EvaluationResult (v : value) : bool :=
  has is_bool "qualified" v
  && has (fun d =>
        has (nullable is_string) "applicant_name" d
        && has (nullable is_number) "mother_income" d
        && has (nullable is_number) "father_income" d
        && has (nullable is_number) "total_income" d
        && has (nullable is_number) "gwa" d
        && has (nullable is_string) "enrollment_status" d
        && has (nullable is_string) "school" d
        && has (nullable is_string) "course" d) "extracted_data" v
  && has (fun e =>
        has (fun c =>
              has is_bool "passed" c
              && has (nullable is_number) "mother_value_found" c
              && has (nullable is_number) "father_value_found" c
              && has (nullable is_number) "total_value_found" c
              && has is_number "threshold" c
              && has is_bool "income_verified" c
              && has is_string "reason" c) "income_check" e
        && has (fun c =>
              has is_bool "passed" c
              && has (nullable is_number) "value_found" c
              && has is_number "threshold" c
              && has is_string "reason" c) "gwa_check" e) "evaluation" v
  && has is_string_array "disqualification_reasons" v
  && has score_in_range "confidence_score" v
  && has is_ocr_quality "ocr_quality" v
  && has is_string "notes" v.

(** [qualified] is true exactly when both checks passed. *)
Definition qualified_iff_both_passed (r : value) : Prop :=
  get_path r ["qualified"] = Ok (VBool true) <->
  (get_path r ["evaluation"; "income_check"; "passed"] = Ok (VBool true) /\
   get_path r ["evaluation"; "gwa_check"; "passed"] = Ok (VBool true)).

(* ===================================================================== *)
(** ** Hosts on which the program is run in examples *)
(* ===================================================================== *)

(** The digits of [r / d] after the decimal point, for [0 <= r < d]. *)
Fixpoint fraction_digits (n : nat) (r d : Z) : string :=
  match n with
  | O => EmptyString
  | S n' =>
      if r =? 0 then EmptyString
      else pretty (r * 10 / d) +:+ fraction_digits n' (r * 10 mod d) d
  end.

(** Decimal notation of a number, with at most twenty decimals. *)
Definition decimal_notation (n : number) : string :=
  match n with
  | NaN => "NaN"
  | PInf => "Infinity"
  | NInf => "-Infinity"
  | Fin q =>
      let a := Z.abs (Qnum q) in
      let d := Z.pos (Qden q) in
      (if Qnum q <? 0 then "-" else "") +:+ pretty (a / d)
      +:+ (if a mod d =? 0 then "" else "." +:+ fraction_digits 20 (a mod d) d)
  end.

(** A host with an API key, two rules, a PDF parser and an OCR engine that
    return fixed texts, a storage and a database that never fail.  [mock] is
    the evaluation mode and [content] the answer of the reasoning engine. *)
Definition example_host (mock : bool) (content : string) : Host := {|
  Number_toString := decimal_notation;
  Number_toLocaleString := decimal_notation;
  USE_MOCK_MODE := mock;
  GROQ_API_KEY := Some "gsk_example";
  chat_completions_create := fun _ => Ok content;
  pdfParse := fun buffer => Ok "Monthly Salary: 12000";
  Tesseract_recognize := fun _ _ _ => Ok " GWA: 2.5 ";
  scholarship_rules :=
    Some [ {| rule_key := "max_monthly_income"; rule_value := VStr "30000";
              description := VNull |};
           {| rule_key := "max_gwa"; rule_value := VStr "3.0";
              description := VNull |} ];
  storage_upload_error := fun _ => None;
  applications_insert_error := fun _ => None;
  Date_now := num_of_Z 1700000000000
|}.

Definition example_files : Files := {|
  mother_certificate :=
    Some {| originalname := "mother.txt"; mimetype := "text/plain";
            path := "uploads/3f1a" |};
  father_certificate :=
    Some {| originalname := "father.pdf"; mimetype := "application/pdf";
            path := "uploads/77c0" |};
  report_card :=
    Some {| originalname := "report.png"; mimetype := "image/png";
            path := "uploads/a9d2" |}
|}.

(** The temp directory after multer has stored the three uploads. *)
Definition example_world : World := {|
  temp_files :=
    {[ "uploads/3f1a" := " Monthly income: 15000 ";
       "uploads/77c0" := "%PDF-1.4";
       "uploads/a9d2" := "PNG" ]};
  bucket := [];
  applications := []
|}.

Definition example_request : Request := {|
  files := Some example_files;
  mother_income := Some "15000";
  father_income := Some "12000";
  user_id := "u1"
|}.

(** The same upload with the mother's income left out of the form. *)
Definition request_without_income : Request := {|
  files := Some example_files;
  mother_income := None;
  father_income := Some "12000";
  user_id := "u1"
|}.

(** The answers of the reasoning engine used in the counterexamples below,
    and the values [JSON.parse] makes of them. *)
Definition content_unbalanced : string :=
  dq "{'qualified': true, 'evaluation': {'income_check': {'passed': false}, 'gwa_check': {'passed': true}}, 'confidence_score': 90}".

Definition result_unbalanced : value :=
  VObj [("qualified", VBool true);
        ("evaluation",
         VObj [("income_check", VObj [("passed", VBool false)]);
               ("gwa_check", VObj [("passed", VBool true)])]);
        ("confidence_score", VNum (num_of_Z 90))].

Definition content_partial : string :=
  dq "{'qualified': true, 'confidence_score': 90}".

Definition result_partial : value :=
  VObj [("qualified", VBool true); ("confidence_score", VNum (num_of_Z 90))].

Definition content_overconfident : string :=
  dq "{'qualified': true, 'confidence_score': 150}".

Definition result_overconfident : value :=
  VObj [("qualified", VBool true); ("confidence_score", VNum (num_of_Z 150))].

(** The rule set of the mock scenarios. *)
Definition default_rules : list (string * value) :=
  [("max_monthly_income", VStr "30000"); ("max_gwa", VStr "3.0")].

Definition strict_rules : list (string * value) :=
  [("max_monthly_income", VStr "20000")].

(** A computation keeps a component [pi] of the world. *)
Definition keeps {A X : Type} (pi : World -> X) (m : M A) : Prop :=
  forall w, pi (m w).2 = pi w.

(** A computation only appends to the bucket. *)
Definition appends {A : Type} (m : M A) : Prop :=
  forall w r w', m w = (r, w') -> exists l, bucket w' = (bucket w ++ l)%list.

(** An object of the bucket holds the content of [file] under the content
    type derived from its declared type. *)
Definition stored_as (fs : FileSystem) (file : UploadedFile) (o : StoredObject)
  : Prop :=
  fs !! path file = Some (object_body o) /\
  contentType o
  = (if decide (mimetype file = "text/plain") then "application/pdf"
     else mimetype file).

(* ===================================================================== *)
(** ** Sanity checks of the built-ins *)
(* ===================================================================== *)

Example parseInt_examples :
  parseInt "30000" = num_of_Z 30000 /\ parseInt " 42px" = num_of_Z 42 /\
  parseInt "0x1F" = num_of_Z 31 /\ parseInt "-7.9" = num_of_Z (-7) /\
  parseInt "abc" = NaN /\ parseInt "" = NaN.
Proof. repeat split. Qed.

Example parseFloat_examples :
  parseFloat "3.0" = num_of_Z 3 /\ parseFloat "2.5" = Fin (5 # 2) /\
  parseFloat ".5e1" = num_of_Z 5 /\ parseFloat "1.x" = num_of_Z 1 /\
  parseFloat "1e" = num_of_Z 1 /\ parseFloat "-Infinity" = NInf /\
  parseFloat "." = NaN /\ parseFloat "max" = NaN.
Proof. repeat split. Qed.

Example StringToNumber_examples :
  StringToNumber "" = num_of_Z 0 /\ StringToNumber " 50 " = num_of_Z 50 /\
  StringToNumber "0b101" = num_of_Z 5 /\ StringToNumber "12px" = NaN.
Proof. repeat split. Qed.

Example trim_examples :
  trim "  GWA: 2.5  " = "GWA: 2.5" /\ trim (bytes [9; 10; 65; 13; 32]%N) = "A" /\
  trim "" = "".
Proof. repeat split. Qed.

Example JSON_parse_examples :
  JSON_parse content_unbalanced = Ok result_unbalanced /\
  JSON_parse (dq "[1, 2.5, -3e2, 'a\n', null, {'k': false, 'k': true}]")
  = Ok (VArr [VNum (num_of_Z 1); VNum (Fin (5 # 2)); VNum (num_of_Z (-300));
              VStr (String "a" (str1 LF)); VNull; VObj [("k", VBool true)]]) /\
  JSON_parse (dq "'\u00e9\ud83d\ude00'") = Ok (VStr "é😀") /\
  JSON_parse "{}" = Ok (VObj []) /\
  JSON_parse "" = Throw (SyntaxError "Unexpected token in JSON") /\
  JSON_parse "[1,]" = Throw (SyntaxError "Unexpected token in JSON") /\
  JSON_parse "01" = Throw (SyntaxError "Unexpected token in JSON") /\
  JSON_parse "1 2"
  = Throw (SyntaxError "Unexpected non-whitespace character after JSON").
Proof. repeat split. Qed.

(* ===================================================================== *)
(** ** [JSON.parse] never exhausts its recursion budget *)
(* ===================================================================== *)

Ltac break_goal :=
  match goal with
  | |- context [match ?x with _ => _ end] => destruct x eqn:?; try discriminate
  | |- context [if ?x then _ else _] => destruct x eqn:?; try discriminate
  end.

Ltac break_hyp :=
  match goal with
  | H : context [match ?x with _ => _ end] |- _ => destruct x eqn:?; try discriminate
  end.

Ltac break_in E :=
  match type of E with
  | context [match ?x with _ => _ end] => destruct x eqn:?; try discriminate
  | context [if ?x then _ else _] => destruct x eqn:?; try discriminate
  end.

Ltac inv_pairs :=
  repeat match goal with
  | H : (_, _) = (_, _) |- _ => inversion H; clear H; subst
  | H : Some _ = Some _ |- _ => inversion H; clear H; subst
  end.

Lemma span_length p s a b :
  span p s = (a, b) -> (String.length a + String.length b = String.length s)%nat.
Proof.
  revert a b. induction s as [|c s IH]; simpl; intros a b E.
  - inversion E; reflexivity.
  - destruct (p c).
    + destruct (span p s) as [a' b'] eqn:E'. inversion E; subst. simpl.
      specialize (IH _ _ eq_refl). lia.
    + inversion E; subst. reflexivity.
Qed.

Lemma skip_ws_length s : (String.length (skip_ws s) <= String.length s)%nat.
Proof.
  induction s as [|c s IH]; simpl; [lia|].
  destruct (is_json_ws c); simpl; lia.
Qed.

Lemma skip_ws_cons s c r :
  skip_ws s = String c r -> (S (String.length r) <= String.length s)%nat.
Proof. intros E. pose proof (skip_ws_length s) as L. rewrite E in L. exact L. Qed.

Lemma starts_with_length p s r :
  starts_with p s = Some r ->
  (String.length p + String.length r = String.length s)%nat.
Proof.
  revert s. induction p as [|c p IH]; simpl; intros s E.
  - inversion E; reflexivity.
  - destruct s as [|d s]; [discriminate|].
    destruct (Ascii.eqb c d); [|discriminate]. simpl. apply IH in E. lia.
Qed.

Lemma take_sign_length s b r :
  take_sign s = (b, r) -> (String.length r <= String.length s)%nat.
Proof.
  unfold take_sign. repeat break_goal; intros E; inversion E; subst; simpl; lia.
Qed.

Lemma prepend_some pre o t r :
  prepend pre o = Some (t, r) -> exists t', o = Some (t', r).
Proof. destruct o as [[t' r']|]; simpl; intros E; inversion E; eauto. Qed.

Lemma parse_chars_length_aux (n : nat) : forall s hi t r,
  (String.length s <= n)%nat ->
  parse_chars hi s = Some (t, r) -> (String.length r < String.length s)%nat.
Proof.
  induction n as [|n IH]; intros s hi t r Hn E.
  - destruct s; simpl in *; [discriminate | lia].
  - destruct s as [|c s]; simpl in E; [discriminate|]. simpl in Hn.
    assert (IH' : forall s' hi t r,
              (String.length s' <= String.length s)%nat ->
              parse_chars hi s' = Some (t, r) ->
              (String.length r < S (String.length s'))%nat).
    { intros s' hi' t' r' Hl E'. apply IH in E'; simpl; lia. }
    clear IH.
    repeat break_in E;
    try (inversion E; subst; simpl; lia);
    try (apply prepend_some in E as [? E]); apply IH' in E; simpl in *; lia.
Qed.

Lemma parse_chars_length s hi t r :
  parse_chars hi s = Some (t, r) -> (String.length r < String.length s)%nat.
Proof. apply (parse_chars_length_aux (String.length s)). lia. Qed.

Lemma json_minus_length s b r :
  json_minus s = (b, r) -> (String.length r <= String.length s)%nat.
Proof.
  unfold json_minus. repeat break_goal; intros E; inversion E; subst; simpl; lia.
Qed.

Lemma json_frac_length s fp r :
  json_frac s = Some (fp, r) -> (String.length r <= String.length s)%nat.
Proof.
  unfold json_frac. intros E. repeat break_hyp; inv_pairs; simpl; try lia.
  all: match goal with H : span _ _ = _ |- _ => apply span_length in H end;
    simpl in *; lia.
Qed.

Lemma json_exp_length s ex r :
  json_exp s = Some (ex, r) -> (String.length r <= String.length s)%nat.
Proof.
  unfold json_exp. intros E. repeat break_hyp; inv_pairs; simpl; try lia.
  all: repeat match goal with
       | H : span _ _ = _ |- _ => apply span_length in H
       | H : take_sign _ = _ |- _ => apply take_sign_length in H
       end; simpl in *; lia.
Qed.

Lemma parse_number_length s n r :
  parse_number s = Some (n, r) -> (String.length r < String.length s)%nat.
Proof.
  unfold parse_number. intros E.
  destruct (json_minus s) as [neg s1] eqn:E1.
  destruct (span is_digit s1) as [ip r1] eqn:E2.
  destruct ip as [|c ip]; [discriminate|].
  assert (E' : match json_frac r1 with
               | Some (fp, r2) =>
                   match json_exp r2 with
                   | Some (ex, r3) => Some (n, r3)
                   | None => None
                   end
               | None => None
               end = Some (n, r)).
  { repeat break_hyp; inv_pairs; reflexivity. }
  clear E.
  destruct (json_frac r1) as [[fp r2]|] eqn:E3; [|discriminate].
  destruct (json_exp r2) as [[ex r3]|] eqn:E4; [|discriminate].
  inv_pairs.
  apply json_minus_length in E1. apply span_length in E2.
  apply json_frac_length in E3. apply json_exp_length in E4. simpl in *. lia.
Qed.

Ltac lengths :=
  repeat match goal with
  | H : parse_chars _ _ = Some _ |- _ => apply parse_chars_length in H
  | H : parse_number _ = Some _ |- _ => apply parse_number_length in H
  | H : starts_with _ _ = Some _ |- _ => apply starts_with_length in H
  | H : skip_ws _ = String _ _ |- _ => apply skip_ws_cons in H
  | H : POk _ _ = POk _ _ |- _ => inversion H; clear H; subst
  end; simpl in *.

(** Every successful parse consumes at least one character. *)
Lemma parse_progress (f : nat) :
  (forall s v r, parse_value f s = POk v r ->
                 (String.length r < String.length s)%nat) /\
  (forall acc s v r, parse_elements f acc s = POk v r ->
                     (String.length r < String.length s)%nat) /\
  (forall acc s v r, parse_members f acc s = POk v r ->
                     (String.length r < String.length s)%nat).
Proof.
  induction f as [|f (IHv & IHe & IHm)]; [repeat split; intros; discriminate|].
  repeat split.
  - intros s v r E. cbn [parse_value parse_elements parse_members] in E.
    repeat break_in E;
      try match type of E with
          | parse_members _ _ _ = _ => apply IHm in E
          | parse_elements _ _ _ = _ => apply IHe in E
          end; lengths; lia.
  - intros acc s v r E. cbn [parse_value parse_elements parse_members] in E.
    destruct (parse_value f s) as [v0 r0| |] eqn:Ev; try discriminate.
    apply IHv in Ev.
    repeat break_in E;
      try match type of E with
          | parse_elements _ _ _ = _ => apply IHe in E
          end; lengths; lia.
  - intros acc s v r E. cbn [parse_value parse_elements parse_members] in E.
    destruct (skip_ws s) as [|c r0] eqn:Es; [discriminate|].
    destruct (Ascii.eqb c dquote); [|discriminate].
    destruct (parse_chars None r0) as [[k r1]|] eqn:Ek; [|discriminate].
    destruct (skip_ws r1) as [|c1 r2] eqn:Es1; [discriminate|].
    destruct (parse_value f r2) as [v0 r3| |] eqn:Ev.
    + apply IHv in Ev.
      repeat break_in E;
      try match type of E with
          | parse_members _ _ _ = _ => apply IHm in E
          end; lengths; lia.
    + repeat break_in E.
    + repeat break_in E.
Qed.

(** A budget of twice the length of the text (plus one for a value, plus two
    for the rest of an array or object) is never exhausted. *)
Lemma parse_enough (f : nat) :
  (forall s, (2 * String.length s + 1 <= f)%nat -> parse_value f s <> PFuel) /\
  (forall acc s, (2 * String.length s + 2 <= f)%nat ->
                 parse_elements f acc s <> PFuel) /\
  (forall acc s, (2 * String.length s + 2 <= f)%nat ->
                 parse_members f acc s <> PFuel).
Proof.
  induction f as [|f (IHv & IHe & IHm)]; [repeat split; intros; lia|].
  destruct (parse_progress f) as (Pv & Pe & Pm).
  repeat split.
  - intros s Hf. cbn [parse_value parse_elements parse_members].
    repeat break_goal; lengths;
      try match goal with
          | |- parse_members _ _ _ <> _ => apply IHm
          | |- parse_elements _ _ _ <> _ => apply IHe
          end; lia.
  - intros acc s Hf. cbn [parse_value parse_elements parse_members].
    destruct (parse_value f s) as [v0 r0| |] eqn:Ev; try discriminate.
    + apply Pv in Ev.
      repeat break_goal; lengths;
        try match goal with
            | |- parse_elements _ _ _ <> _ => apply IHe
            end; lia.
    + exfalso. revert Ev. apply IHv. lia.
  - intros acc s Hf. cbn [parse_value parse_elements parse_members].
    destruct (skip_ws s) as [|c r0] eqn:Es; [discriminate|].
    destruct (Ascii.eqb c dquote); [|discriminate].
    destruct (parse_chars None r0) as [[k r1]|] eqn:Ek; [|discriminate].
    destruct (skip_ws r1) as [|c1 r2] eqn:Es1; [discriminate|].
    lengths.
    destruct (parse_value f r2) as [v0 r3| |] eqn:Ev.
    + apply Pv in Ev.
      repeat break_goal; lengths;
        try match goal with
            | |- parse_members _ _ _ <> _ => apply IHm
            end; lia.
    + repeat break_goal.
    + exfalso. revert Ev. apply IHv. lia.
Qed.

Lemma parse_value_enough (text : string) :
  parse_value (2 * String.length text + 1) text <> PFuel.
Proof. apply parse_enough. lia. Qed.

(** The only exception of [JSON.parse] is a [SyntaxError]. *)
Lemma JSON_parse_throws_SyntaxError (text : string) (e : exn) :
  JSON_parse text = Throw e -> exn_name e = "SyntaxError".
Proof.
  unfold JSON_parse. intros E.
  destruct (parse_value _ text) as [v r| |] eqn:Ev.
  - destruct (skip_ws r); inversion E; reflexivity.
  - inversion E; reflexivity.
  - exfalso. revert Ev. apply parse_value_enough.
Qed.

(* ===================================================================== *)
(** ** Numbers and strings *)
(* ===================================================================== *)

Lemma num_lt_Z (a b : Z) : num_lt (num_of_Z a) (num_of_Z b) = (a <? b).
Proof.
  unfold num_lt, num_of_Z, Qle_bool, inject_Z. simpl.
  rewrite !Z.mul_1_r. rewrite Z.ltb_antisym. reflexivity.
Qed.

Lemma num_le_Z (a b : Z) : num_le (num_of_Z a) (num_of_Z b) = (a <=? b).
Proof.
  unfold num_le, num_of_Z, Qle_bool, inject_Z. simpl.
  rewrite !Z.mul_1_r. reflexivity.
Qed.








(* ===================================================================== *)
(** ** The handler, step by step *)
(* ===================================================================== *)

Lemma run_bind {A B : Type} (m : M A) (k : A -> M B) (w : World) :
  (m ≫= k) w = match m w with
               | (Ok a, w') => k a w'
               | (Throw e, w') => (Throw e, w')
               end.
Proof. reflexivity. Qed.

Lemma keeps_bind {A B X : Type} (pi : World -> X) (m : M A) (k : A -> M B) :
  keeps pi m -> (forall a, keeps pi (k a)) -> keeps pi (m ≫= k).
Proof.
  intros Hm Hk w. rewrite run_bind. specialize (Hm w).
  destruct (m w) as [[a|e] w1]; simpl in *.
  - rewrite Hk. exact Hm.
  - exact Hm.
Qed.

Ltac run_read E H :=
  rewrite run_bind in E; unfold reading at 1 in E;
  match type of E with
  | context [readFileSync ?fs ?p] => destruct (readFileSync fs p) eqn:H
  end.

Ltac run_upload E :=
  rewrite run_bind in E; unfold upload at 1 in E;
  match type of E with
  | context [storage_upload_error ?o] => destruct (storage_upload_error o)
  end.

Ltac run_reading E H :=
  rewrite run_bind in E; unfold reading at 1 in E; cbv beta iota in E;
  match type of E with
  | match ?x with _ => _ end = _ => destruct x eqn:H; [|discriminate]
  end.

Section Handler.
Context `{Host}.

Lemma keeps_reading {A X : Type} (pi : World -> X) (f : FileSystem -> result A) :
  keeps pi (reading f).
Proof. intros w. reflexivity. Qed.

Lemma insert_keeps_bucket (row : ApplicationRow) :
  keeps bucket (insert_application row).
Proof.
  intros w. unfold insert_application.
  destruct (applications_insert_error row); reflexivity.
Qed.

Lemma unlink_if_exists_files (file : UploadedFile) (w : World) :
  temp_files (unlink_if_exists file w) = delete (path file) (temp_files w).
Proof.
  unfold unlink_if_exists. case_decide as Hx; [reflexivity|].
  simpl. symmetry. apply delete_id.
  destruct (temp_files w !! path file) eqn:E; [|reflexivity].
  exfalso. apply Hx. eauto.
Qed.

Lemma unlink_if_exists_bucket (file : UploadedFile) (w : World) :
  bucket (unlink_if_exists file w) = bucket w.
Proof. unfold unlink_if_exists. case_decide; reflexivity. Qed.

Lemma readFileSync_Ok (fs : FileSystem) (p c : string) :
  readFileSync fs (Some p) = Ok c -> fs !! p = Some c.
Proof.
  unfold readFileSync. destruct (fs !! p); intros E; inversion E; reflexivity.
Qed.

(** Past validation, the three temp files are gone when the handler returns,
    whatever happened in between. *)
Lemma submit_cleans_up (req : Request) (w : World) (mf ff rf : UploadedFile) :
  files req = Some {| mother_certificate := Some mf;
                      father_certificate := Some ff;
                      report_card := Some rf |} ->
  falsy_field (mother_income req) = false ->
  falsy_field (father_income req) = false ->
  forall file, file ∈ [mf; ff; rf] ->
    temp_files (submit req w).2 !! path file = None.
Proof.
  intros Hf Hm Hi file Hin. unfold submit. rewrite Hf, Hm, Hi. cbn [orb].
  destruct (submit_try _ _ _ _ _ _ w) as [outcome w'] eqn:E. cbn [snd].
  rewrite !unlink_if_exists_files.
  set_unfold in Hin.
  rewrite !lookup_delete_None.
  destruct Hin as [? | [? | [? | []]]]; subst; auto.
Qed.

(** A request that fails validation leaves the world as it is: nothing is
    stored, and nothing is deleted. *)
Lemma submit_400_keeps_world (req : Request) (w : World) :
  status_code (submit req w).1 = 400 -> (submit req w).2 = w.
Proof.
  unfold submit.
  destruct (files req) as [[[mf|] [ff|] [rf|]]|]; try reflexivity.
  destruct (falsy_field (mother_income req) || falsy_field (father_income req));
    [reflexivity|].
  destruct (submit_try _ _ _ _ _ _ w) as [[a|e] w']; simpl; discriminate.
Qed.

Ltac stored_prefix :=
  cbn [take]; cbn [temp_files] in *;
  repeat match goal with
  | |- Forall2 _ [] [] => constructor
  | |- Forall2 _ (_ :: _) (_ :: _) =>
      constructor; [split; [apply readFileSync_Ok; eassumption | reflexivity]|]
  end.

Ltac stored_ok E :=
  inversion E; subst; clear E;
  cbn [bucket]; rewrite <- ?app_assoc, ?app_nil_r;
  split; [reflexivity|];
  split; [stored_prefix | try discriminate].

(** The [try] block stores the documents in the order mother, father,
    report, and stops at the first failure. *)
Lemma submit_try_bucket req mf ff rf mi fi w r w' :
  submit_try req mf ff rf mi fi w = (r, w') ->
  exists (n : nat) (stored : list StoredObject),
    bucket w' = (bucket w ++ stored)%list /\
    Forall2 (stored_as (temp_files w)) (take n [mf; ff; rf]) stored /\
    (forall a, r = Ok a -> n = 3%nat).
Proof.
  unfold submit_try. intros E.
  run_read E Em; [|exists 0%nat, []; stored_ok E].
  run_upload E; [exists 0%nat, []; stored_ok E|].
  cbn [temp_files] in E.
  run_read E Ef; [|eexists 1%nat, [_]; stored_ok E].
  run_upload E; [eexists 1%nat, [_]; stored_ok E|].
  cbn [temp_files] in E.
  run_read E Er; [|eexists 2%nat, [_; _]; stored_ok E].
  run_upload E; [eexists 2%nat, [_; _]; stored_ok E|].
  match type of E with
  | ?rest ?w3 = _ => assert (Hk : keeps bucket rest)
  end.
  { repeat first
      [ apply keeps_reading | apply insert_keeps_bucket
      | apply keeps_bind; [|intros ?] ]. }
  eexists 3%nat, [_; _; _].
  match type of E with
  | ?rest ?w3 = _ => specialize (Hk w3); rewrite E in Hk; cbn [snd bucket] in Hk
  end.
  rewrite Hk. clear E Hk. rewrite <- !app_assoc.
  split; [reflexivity|].
  split; [|reflexivity].
  stored_prefix.
Qed.

(** An extract-only call on a file resolves to the text of [extractText]. *)
Lemma processApplication_extract_only fs p mt pr :
  processApplication fs (Some p) (Some mt) None true = Ok pr ->
  exists t, extractText fs (Some p) (Some mt) = Ok t /\ text_of pr = t.
Proof.
  unfold processApplication. cbn [andb].
  destruct (truthy_path (Some p)).
  - destruct (extractText fs (Some p) (Some mt)) as [t|e]; cbn; intros E; inversion E.
    exists t. split; reflexivity.
  - destruct (extractText fs (Some p) (Some mt)) as [t|e]; cbn; [|discriminate].
    destruct loadRules as [rules|e]; cbn; [|discriminate].
    destruct (evaluateWithAI t rules None) as [ev|e]; cbn; intros E; inversion E.
    exists t. split; reflexivity.
Qed.

(** The row of a successful submission: its text is the combined text of the
    three extractions, and its status is derived from its evaluation. *)
Lemma submit_try_row req mf ff rf mi fi w row w' :
  submit_try req mf ff rf mi fi w = (Ok row, w') ->
  (exists m f r,
     extractText (temp_files w) (Some (path mf)) (Some (mimetype mf)) = Ok m /\
     extractText (temp_files w) (Some (path ff)) (Some (mimetype ff)) = Ok f /\
     extractText (temp_files w) (Some (path rf)) (Some (mimetype rf)) = Ok r /\
     row_extracted_text row = combined_text m f r) /\
  derive_status (row_evaluation_result row) = Ok (row_status row).
Proof.
  unfold submit_try. intros E.
  run_read E Em; [|discriminate].
  run_upload E; [discriminate|]. cbn [temp_files] in E.
  run_read E Ef; [|discriminate].
  run_upload E; [discriminate|]. cbn [temp_files] in E.
  run_read E Er; [|discriminate].
  run_upload E; [discriminate|]. cbn [temp_files] in E.
  run_reading E Pm. run_reading E Pf. run_reading E Pr. cbn [temp_files] in *.
  apply processApplication_extract_only in Pm as (m & Hm & Tm).
  apply processApplication_extract_only in Pf as (f & Hf & Tf).
  apply processApplication_extract_only in Pr as (r & Hr & Tr).
  run_reading E Pe. run_reading E Ps. run_reading E Pq. run_reading E Pc.
  unfold insert_application in E.
  match type of E with
  | context [applications_insert_error ?row] =>
      destruct (applications_insert_error row); [discriminate|]
  end.
  inversion E; subst. cbn [row_extracted_text row_evaluation_result row_status].
  split; [|assumption].
  exists (text_of a2), (text_of a3), (text_of a4). auto.
Qed.

Lemma readFileSync_Some (fs : FileSystem) (p c : string) :
  fs !! p = Some c -> readFileSync fs (Some p) = Ok c.
Proof. intros E. unfold readFileSync. rewrite E. reflexivity. Qed.

Lemma appends_bind {A B : Type} (m : M A) (k : A -> M B) :
  appends m -> (forall a, appends (k a)) -> appends (m ≫= k).
Proof.
  intros Hm Hk w r w' E. rewrite run_bind in E.
  destruct (m w) as [[a|e] w1] eqn:Em.
  - destruct (Hm _ _ _ Em) as [l1 H1]. destruct (Hk a _ _ _ E) as [l2 H2].
    exists (l1 ++ l2)%list. rewrite H2, H1, app_assoc. reflexivity.
  - inversion E; subst. exact (Hm _ _ _ Em).
Qed.

Lemma appends_keeps {A : Type} (m : M A) : keeps bucket m -> appends m.
Proof.
  intros Hk w r w' E. exists []. rewrite app_nil_r.
  specialize (Hk w). rewrite E in Hk. exact Hk.
Qed.

Lemma appends_upload (o : StoredObject) : appends (upload o).
Proof.
  intros w r w' E. unfold upload in E.
  destruct (storage_upload_error o); inversion E; subst; cbn [bucket].
  - exists []. rewrite app_nil_r. reflexivity.
  - exists [o]. reflexivity.
Qed.

Ltac appends_tail :=
  repeat first
    [ apply appends_upload
    | apply appends_keeps; first [apply keeps_reading | apply insert_keeps_bucket]
    | apply appends_bind; [|intros ?] ].

Ltac run_read_ok E Hc :=
  rewrite run_bind in E; unfold reading at 1 in E; cbn [temp_files] in E;
  rewrite (readFileSync_Some _ _ _ Hc) in E.

Ltac run_upload_ok E Hu :=
  rewrite run_bind in E; unfold upload at 1 in E; rewrite Hu in E;
  cbn [temp_files] in E.

(** The objects of the [try] block, one after the other: a document whose
    temp file is readable and whose upload is accepted is appended to the
    bucket, with its path, its content and its content type, provided the
    documents before it were. *)
Lemma submit_try_stores req mf ff rf mi fi w r w' stored :
  submit_try req mf ff rf mi fi w = (r, w') ->
  bucket w' = (bucket w ++ stored)%list ->
  let object prefix file body :=
    {| object_path := "documents/" +:+ user_id req +:+ prefix
                      +:+ Number_toString Date_now +:+ "_" +:+ originalname file;
       object_body := body;
       contentType := storage_content_type (mimetype file) |} in
  forall cm, temp_files w !! path mf = Some cm ->
    storage_upload_error (object "/mother_income_" mf cm) = None ->
    stored !! 0%nat = Some (object "/mother_income_" mf cm) /\
    forall cf, temp_files w !! path ff = Some cf ->
      storage_upload_error (object "/father_income_" ff cf) = None ->
      stored !! 1%nat = Some (object "/father_income_" ff cf) /\
      forall cr, temp_files w !! path rf = Some cr ->
        storage_upload_error (object "/report_" rf cr) = None ->
        stored = [object "/mother_income_" mf cm;
                  object "/father_income_" ff cf;
                  object "/report_" rf cr].
Proof.
  unfold submit_try. intros E Hb. cbv zeta. intros cm Hm Hum.
  run_read_ok E Hm. run_upload_ok E Hum.
  split.
  { match type of E with
    | ?rest ?w1 = _ => assert (Ha : appends rest) by appends_tail;
                       destruct (Ha _ _ _ E) as [l Hl]
    end.
    cbn [bucket] in Hl. rewrite Hb, <- app_assoc in Hl.
    apply app_inv_head in Hl. rewrite Hl. reflexivity. }
  intros cf Hf Huf.
  run_read_ok E Hf. run_upload_ok E Huf.
  split.
  { match type of E with
    | ?rest ?w1 = _ => assert (Ha : appends rest) by appends_tail;
                       destruct (Ha _ _ _ E) as [l Hl]
    end.
    cbn [bucket] in Hl. rewrite Hb, <- !app_assoc in Hl.
    apply app_inv_head in Hl. rewrite Hl. reflexivity. }
  intros cr Hr Hur.
  run_read_ok E Hr. run_upload_ok E Hur.
  match type of E with
  | ?rest ?w3 = _ =>
      assert (Hk : keeps bucket rest);
      [ repeat first
          [ apply keeps_reading | apply insert_keeps_bucket
          | apply keeps_bind; [|intros ?] ]
      | specialize (Hk w3); rewrite E in Hk; cbn [snd bucket] in Hk ]
  end.
  rewrite Hb, <- !app_assoc in Hk. apply app_inv_head in Hk. exact Hk.
Qed.

End Handler.

(* ===================================================================== *)
(** ** The mock evaluator *)
(* ===================================================================== *)

Section Mock.
Context `{Host}.

Lemma mock_qualified (text : string) (rules : list (string * value)) :
  get_path (generateMockEvaluation text rules) ["qualified"]
  = Ok (VBool (num_le (num_of_Z 25000) (maxIncome rules)
               && num_le (Fin (5 # 2)) (maxGWA rules))).
Proof. reflexivity. Qed.

Lemma mock_income_passed (text : string) (rules : list (string * value)) :
  get_path (generateMockEvaluation text rules)
           ["evaluation"; "income_check"; "passed"]
  = Ok (VBool (num_le (num_of_Z 25000) (maxIncome rules))).
Proof. reflexivity. Qed.

Lemma mock_gwa_passed (text : string) (rules : list (string * value)) :
  get_path (generateMockEvaluation text rules)
           ["evaluation"; "gwa_check"; "passed"]
  = Ok (VBool (num_le (Fin (5 # 2)) (maxGWA rules))).
Proof. reflexivity. Qed.

Lemma mock_income_threshold (text : string) (rules : list (string * value)) :
  get_path (generateMockEvaluation text rules)
           ["evaluation"; "income_check"; "threshold"]
  = Ok (VNum (maxIncome rules)).
Proof. reflexivity. Qed.

(** The synthetic applicant does not depend on the text nor on the rules. *)
Lemma mock_applicant (text : string) (rules : list (string * value)) :
  let r := generateMockEvaluation text rules in
  get_path r ["extracted_data"; "mother_income"] = Ok (VNum (num_of_Z 12000)) /\
  get_path r ["extracted_data"; "father_income"] = Ok (VNum (num_of_Z 13000)) /\
  get_path r ["extracted_data"; "total_income"] = Ok (VNum (num_of_Z 25000)) /\
  get_path r ["extracted_data"; "gwa"] = Ok (VNum (Fin (5 # 2))) /\
  get_path r ["confidence_score"] = Ok (VNum (num_of_Z 95)).
Proof. repeat split. Qed.

(** The mock evaluation ignores the extracted text. *)
Lemma mock_ignores_text (text text' : string) (rules : list (string * value)) :
  generateMockEvaluation text rules = generateMockEvaluation text' rules.
Proof. reflexivity. Qed.

(** In mock mode [evaluateWithAI] is the mock evaluation: neither the engine
    nor the income-verification context is consulted. *)
Lemma evaluateWithAI_mock (text : string) (rules : list (string * value))
  (iv : option IncomeVerification) :
  USE_MOCK_MODE = true ->
  evaluateWithAI text rules iv = Ok (generateMockEvaluation text rules).
Proof. intros Hm. unfold evaluateWithAI. rewrite Hm. reflexivity. Qed.

Lemma maxIncome_string (rules : list (string * value)) (s : string) :
  obj_get "max_monthly_income" rules = VStr s -> s <> "" ->
  maxIncome rules = parseInt s.
Proof.
  intros Hr Hs. unfold maxIncome, or_else. rewrite Hr. cbn [truthy].
  destruct (String.eqb_spec s ""); [contradiction|]. reflexivity.
Qed.

Lemma maxGWA_string (rules : list (string * value)) (s : string) :
  obj_get "max_gwa" rules = VStr s -> s <> "" ->
  maxGWA rules = parseFloat s.
Proof.
  intros Hr Hs. unfold maxGWA, or_else. rewrite Hr. cbn [truthy].
  destruct (String.eqb_spec s ""); [contradiction|]. reflexivity.
Qed.

(** Rule values that are numbers are read through their decimal notation. *)
Lemma maxIncome_number (rules : list (string * value)) (n : number) :
  obj_get "max_monthly_income" rules = VNum n -> truthy (VNum n) = true ->
  maxIncome rules = parseInt (Number_toString n).
Proof.
  intros Hr Ht. unfold maxIncome, or_else. rewrite Hr, Ht. reflexivity.
Qed.

Lemma maxGWA_number (rules : list (string * value)) (n : number) :
  obj_get "max_gwa" rules = VNum n -> truthy (VNum n) = true ->
  maxGWA rules = parseFloat (Number_toString n).
Proof.
  intros Hr Ht. unfold maxGWA, or_else. rewrite Hr, Ht. reflexivity.
Qed.

(** A rule set without the two keys is read as 30000 and 3.0. *)
Lemma mock_defaults (rules : list (string * value)) :
  obj_get "max_monthly_income" rules = VUndefined ->
  obj_get "max_gwa" rules = VUndefined ->
  maxIncome rules = num_of_Z 30000 /\ maxGWA rules = num_of_Z 3.
Proof.
  intros Hi Hg. unfold maxIncome, maxGWA, or_else. rewrite Hi, Hg.
  split; reflexivity.
Qed.

(** C2. For every rule set with max_monthly_income = 30000 and
    max_gwa = 3.0, and for every extracted text, the mock evaluation has
    qualified = true, mother income 12000, father income 13000, total
    income 25000, GWA 2.5 and confidence score 95.  It is a function of its
    two arguments only: it does not depend on the text, and in mock mode
    [evaluateWithAI] returns it whatever the engine and the income
    verification context are. *)
Theorem mock_default_thresholds (text : string) (rules : list (string * value)) :
  obj_get "max_monthly_income" rules = VStr "30000" ->
  obj_get "max_gwa" rules = VStr "3.0" ->
  let r := generateMockEvaluation text rules in
  get_path r ["qualified"] = Ok (VBool true) /\
  get_path r ["extracted_data"; "mother_income"] = Ok (VNum (num_of_Z 12000)) /\
  get_path r ["extracted_data"; "father_income"] = Ok (VNum (num_of_Z 13000)) /\
  get_path r ["extracted_data"; "total_income"] = Ok (VNum (num_of_Z 25000)) /\
  get_path r ["extracted_data"; "gwa"] = Ok (VNum (Fin (5 # 2))) /\
  get_path r ["confidence_score"] = Ok (VNum (num_of_Z 95)) /\
  (forall text', generateMockEvaluation text' rules = r) /\
  (USE_MOCK_MODE = true -> forall iv, evaluateWithAI text rules iv = Ok r).
Proof.
  intros Hi Hg r. subst r.
  rewrite mock_qualified.
  rewrite (maxIncome_string rules "30000" Hi), (maxGWA_string rules "3.0" Hg)
    by discriminate.
  split; [reflexivity|].
  destruct (mock_applicant text rules) as (Hm & Hf & Ht & Hgwa & Hc).
  repeat (split; [assumption|]).
  split; [intros text'; apply mock_ignores_text|].
  intros Hmock iv. apply evaluateWithAI_mock, Hmock.
Qed.

(** C8. For every rule set, the two passed flags of the mock evaluation are
    the comparisons of the synthetic total income 25000 and of the synthetic
    GWA 2.5 with the thresholds read from that rule set, and qualified is
    their conjunction: when max_monthly_income is a text that reads as the
    integer n, the reported threshold is n and incomeCheck.passed is
    25000 <= n, so that qualified is false as soon as n < 25000.  In
    particular, for every rule set in which max_monthly_income = 20000, the
    total income is still 25000, the threshold is 20000,
    incomeCheck.passed = false and qualified = false. *)
Theorem mock_low_threshold (text : string) (rules : list (string * value)) :
  let r := generateMockEvaluation text rules in
  get_path r ["evaluation"; "income_check"; "passed"]
  = Ok (VBool (num_le (num_of_Z 25000)
         (parseInt (ToString
            (or_else (obj_get "max_monthly_income" rules) (VStr "30000")))))) /\
  get_path r ["evaluation"; "gwa_check"; "passed"]
  = Ok (VBool (num_le (Fin (5 # 2))
         (parseFloat (ToString
            (or_else (obj_get "max_gwa" rules) (VStr "3.0")))))) /\
  get_path r ["qualified"]
  = Ok (VBool
         (num_le (num_of_Z 25000)
            (parseInt (ToString
               (or_else (obj_get "max_monthly_income" rules) (VStr "30000"))))
          && num_le (Fin (5 # 2))
               (parseFloat (ToString
                  (or_else (obj_get "max_gwa" rules) (VStr "3.0")))))) /\
  (forall (s : string) (n : Z),
     obj_get "max_monthly_income" rules = VStr s -> s <> "" ->
     parseInt s = num_of_Z n ->
     get_path r ["evaluation"; "income_check"; "threshold"]
     = Ok (VNum (num_of_Z n)) /\
     get_path r ["evaluation"; "income_check"; "passed"]
     = Ok (VBool (25000 <=? n)) /\
     (n < 25000 -> get_path r ["qualified"] = Ok (VBool false))) /\
  (obj_get "max_monthly_income" rules = VStr "20000" ->
   get_path r ["extracted_data"; "total_income"] = Ok (VNum (num_of_Z 25000)) /\
   get_path r ["evaluation"; "income_check"; "threshold"]
   = Ok (VNum (num_of_Z 20000)) /\
   get_path r ["evaluation"; "income_check"; "passed"] = Ok (VBool false) /\
   get_path r ["qualified"] = Ok (VBool false)).
Proof.
  intros r. subst r.
  rewrite mock_qualified, mock_income_passed, mock_income_threshold,
    mock_gwa_passed.
  fold (maxIncome rules). fold (maxGWA rules).
  split; [reflexivity|]. split; [reflexivity|]. split; [reflexivity|].
  split.
  - intros s n Hs Hne Hn.
    rewrite (maxIncome_string rules s Hs Hne), Hn, num_le_Z.
    split; [reflexivity|]. split; [reflexivity|].
    intros Hlt. apply Z.leb_gt in Hlt. rewrite Hlt. reflexivity.
  - intros Hi.
    rewrite (maxIncome_string rules "20000" Hi) by discriminate.
    repeat split.
Qed.

(** C3, as amended.  For every evaluation produced by the mock evaluator,
    qualified is true if and only if incomeCheck.passed and gwaCheck.passed
    are both true; this covers [evaluateWithAI] in mock mode.  (Outside mock
    mode the result is the answer of the engine as parsed, and nothing
    relates these fields.) *)
Theorem mock_qualified_iff_both_passed (text : string)
  (rules : list (string * value)) :
  qualified_iff_both_passed (generateMockEvaluation text rules) /\
  (USE_MOCK_MODE = true ->
   forall iv r, evaluateWithAI text rules iv = Ok r ->
                qualified_iff_both_passed r).
Proof.
  assert (Hm : qualified_iff_both_passed (generateMockEvaluation text rules)).
  { unfold qualified_iff_both_passed.
    rewrite mock_qualified, mock_income_passed, mock_gwa_passed.
    destruct (num_le _ (maxIncome rules)), (num_le _ (maxGWA rules)); simpl;
      split; try intros [? ?]; try split; congruence. }
  split; [exact Hm|].
  intros Hmock iv r. rewrite evaluateWithAI_mock by exact Hmock. intros E.
  inversion E; subst. exact Hm.
Qed.

(** C5, as amended.  For every evaluation produced by the mock evaluator,
    the confidence score is the integer 95, which lies in [0,100]; this
    covers [evaluateWithAI] in mock mode.  (Outside mock mode the score is
    whatever the answer of the engine holds.) *)
Theorem mock_confidence_score (text : string) (rules : list (string * value)) :
  get_path (generateMockEvaluation text rules) ["confidence_score"]
  = Ok (VNum (num_of_Z 95)) /\
  score_in_range (VNum (num_of_Z 95)) = true /\
  (USE_MOCK_MODE = true ->
   forall iv r, evaluateWithAI text rules iv = Ok r ->
     get_path r ["confidence_score"] = Ok (VNum (num_of_Z 95))).
Proof.
  split; [reflexivity|]. split; [reflexivity|].
  intros Hmock iv r. rewrite evaluateWithAI_mock by exact Hmock. intros E.
  inversion E; subst. reflexivity.
Qed.

End Mock.

(* ===================================================================== *)
(** ** The AI evaluator and the text extractor *)
(* ===================================================================== *)

Section Evaluator.
Context `{Host}.

(** C4, as amended.  Outside mock mode, for every content returned by the
    engine, the evaluator returns what [JSON.parse] makes of it: the parsed
    value, unchanged and whatever its shape, when the content is a JSON
    text, and otherwise the exception of the parser, which is a
    SyntaxError.  No validation against the EvaluationResult schema takes
    place. *)
Theorem evaluateWithAI_returns_parsed_content (key : string) (text : string)
  (rules : list (string * value)) (iv : option IncomeVerification)
  (content : string) :
  USE_MOCK_MODE = false ->
  GROQ_API_KEY = Some key -> key <> "" ->
  chat_completions_create (chat_request text rules iv) = Ok content ->
  evaluateWithAI text rules iv = JSON_parse content /\
  (forall e, JSON_parse content = Throw e -> exn_name e = "SyntaxError").
Proof.
  intros Hm Hk Hne Hc. split.
  - unfold evaluateWithAI, groq. rewrite Hm, Hk. cbn [orb].
    destruct (String.eqb_spec key ""); [contradiction|].
    cbn [mbind result_bind]. rewrite Hc. reflexivity.
  - intros e. apply JSON_parse_throws_SyntaxError.
Qed.

(** C10. For every declared MIME type other than text/plain and
    application/pdf, whether an image type or not, [extractText] runs the
    OCR engine on the file, in English, and returns its trimmed text or its
    error: no unsupported-type error is raised here. *)
Theorem extractText_falls_through_to_ocr (fs : FileSystem)
  (imagePath mimetype : option string) :
  mimetype <> Some "text/plain" ->
  mimetype <> Some "application/pdf" ->
  extractText fs imagePath mimetype
  = (text ← Tesseract_recognize fs imagePath "eng"; mret (trim text)).
Proof.
  intros Ht Hp. unfold extractText.
  destruct (decide (mimetype = Some "text/plain")); [contradiction|].
  destruct (decide (mimetype = Some "application/pdf")); [contradiction|].
  reflexivity.
Qed.

(** The two other branches, for comparison. *)
Lemma extractText_plain (fs : FileSystem) (imagePath : option string) :
  extractText fs imagePath (Some "text/plain")
  = (text ← readFileSync fs imagePath; mret (trim text)).
Proof. reflexivity. Qed.

Lemma extractText_pdf (fs : FileSystem) (imagePath : option string) :
  extractText fs imagePath (Some "application/pdf")
  = (dataBuffer ← readFileSync fs imagePath;
     text ← pdfParse dataBuffer; mret (trim text)).
Proof. reflexivity. Qed.

End Evaluator.

(* ===================================================================== *)
(** ** The router *)
(* ===================================================================== *)

Section RouterClaims.
Context `{Host}.

(** C1. For every evaluation whose confidence score is an integer and whose
    qualified flag is a boolean, the derived status is manual_review when
    the score is below 60, whatever the flag; otherwise it is qualified when
    the flag is true and disqualified when it is false. *)
Theorem status_derivation (props : list (string * value)) (score : Z) (q : bool) :
  obj_get "confidence_score" props = VNum (num_of_Z score) ->
  obj_get "qualified" props = VBool q ->
  derive_status (VObj props)
  = Ok (if score <? 60 then manual_review
        else if q then qualified else disqualified).
Proof.
  intros Hs Hq. unfold derive_status. cbn [get_prop]. rewrite Hs, Hq.
  cbn [mbind result_bind]. unfold js_lt_num, ToNumber. rewrite num_lt_Z.
  destruct (score <? 60); [reflexivity|]. destruct q; reflexivity.
Qed.

(** A successful submission: the shape of the request, the run of the [try]
    block, and the response. *)
Lemma submit_200 (req : Request) (w w' : World) (response : Response) :
  submit req w = (response, w') ->
  status_code response = 200 ->
  exists mf ff rf row w1,
    files req = Some {| mother_certificate := Some mf;
                        father_certificate := Some ff;
                        report_card := Some rf |} /\
    submit_try req mf ff rf (parseFloat (field_text (mother_income req)))
               (parseFloat (field_text (father_income req))) w = (Ok row, w1) /\
    body response = SuccessBody row.
Proof.
  unfold submit. intros E Hs.
  destruct (files req) as [[[mf|] [ff|] [rf|]]|];
    try (inversion E; subst; discriminate).
  destruct (falsy_field (mother_income req) || falsy_field (father_income req));
    [inversion E; subst; discriminate|].
  destruct (submit_try _ _ _ _ _ _ w) as [[row|e] w1] eqn:Et;
    inversion E; subst; [|discriminate].
  exists mf, ff, rf, row, w1. auto.
Qed.

(** The application stored by a successful submission carries the combined
    text of the three extractions and the status derived from its
    evaluation. *)
Lemma submit_stores_combined_text (req : Request) (w w' : World)
  (response : Response) :
  submit req w = (response, w') ->
  status_code response = 200 ->
  exists mf ff rf m f r row,
    files req = Some {| mother_certificate := Some mf;
                        father_certificate := Some ff;
                        report_card := Some rf |} /\
    extractText (temp_files w) (Some (path mf)) (Some (mimetype mf)) = Ok m /\
    extractText (temp_files w) (Some (path ff)) (Some (mimetype ff)) = Ok f /\
    extractText (temp_files w) (Some (path rf)) (Some (mimetype rf)) = Ok r /\
    body response = SuccessBody row /\
    row_extracted_text row = combined_text m f r /\
    derive_status (row_evaluation_result row) = Ok (row_status row).
Proof.
  intros E Hs.
  destruct (submit_200 req w w' response E Hs)
    as (mf & ff & rf & row & w1 & Hf & Et & Hb).
  apply submit_try_row in Et as [(m & f & r & Hm & Hf' & Hr & Ht) Hst].
  exists mf, ff, rf, m, f, r, row. auto 10.
Qed.


End RouterClaims.

Section Storage.
Context `{Host}.

(** C9. For every submission that brings the three documents, the objects
    the handler adds to the bucket are, in order, the mother's certificate,
    the father's certificate and the report card, up to the first failure
    (all three when the response is a success).  Each holds the content of
    its temp file, under the content type application/pdf when the declared
    type of the document is text/plain and under the declared type
    otherwise.  Past validation the uploads do happen: a document whose temp
    file is readable and whose upload the storage accepts is added to the
    bucket under that content type, provided the documents before it were,
    and when this holds for the three documents the handler adds exactly
    these three objects. *)
Theorem plain_text_stored_as_pdf (req : Request) (w : World)
  (mf ff rf : UploadedFile) :
  files req = Some {| mother_certificate := Some mf;
                      father_certificate := Some ff;
                      report_card := Some rf |} ->
  let object prefix file body :=
    {| object_path := "documents/" +:+ user_id req +:+ prefix
                      +:+ Number_toString Date_now +:+ "_" +:+ originalname file;
       object_body := body;
       contentType := if decide (mimetype file = "text/plain")
                      then "application/pdf" else mimetype file |} in
  exists (n : nat) (stored : list StoredObject),
    bucket (submit req w).2 = (bucket w ++ stored)%list /\
    Forall2 (fun file o =>
               temp_files w !! path file = Some (object_body o) /\
               contentType o
               = (if decide (mimetype file = "text/plain") then "application/pdf"
                  else mimetype file))
            (take n [mf; ff; rf]) stored /\
    (status_code (submit req w).1 = 200 -> n = 3%nat) /\
    (falsy_field (mother_income req) = false ->
     falsy_field (father_income req) = false ->
     forall cm, temp_files w !! path mf = Some cm ->
       storage_upload_error (object "/mother_income_" mf cm) = None ->
       stored !! 0%nat = Some (object "/mother_income_" mf cm) /\
       forall cf, temp_files w !! path ff = Some cf ->
         storage_upload_error (object "/father_income_" ff cf) = None ->
         stored !! 1%nat = Some (object "/father_income_" ff cf) /\
         forall cr, temp_files w !! path rf = Some cr ->
           storage_upload_error (object "/report_" rf cr) = None ->
           stored = [object "/mother_income_" mf cm;
                     object "/father_income_" ff cf;
                     object "/report_" rf cr]).
Proof.
  intros Hf. cbv zeta. unfold submit. rewrite Hf.
  destruct (falsy_field (mother_income req)) eqn:Hmi;
    [|destruct (falsy_field (father_income req)) eqn:Hfi]; cbn [orb].
  1, 2: exists 0%nat, []; cbn [fst snd]; rewrite app_nil_r;
    (split; [reflexivity|]); (split; [constructor|]);
    (split; [discriminate|]); intros; discriminate.
  destruct (submit_try _ _ _ _ _ _ w) as [outcome w'] eqn:E. cbn [fst snd].
  rewrite !unlink_if_exists_bucket.
  destruct (submit_try_bucket _ _ _ _ _ _ _ _ _ E) as (n & stored & Hb & Hs & Hn).
  exists n, stored. split; [exact Hb|]. split; [exact Hs|].
  split.
  - destruct outcome as [row|e]; [intros _; exact (Hn row eq_refl) | discriminate].
  - intros _ _. exact (submit_try_stores _ _ _ _ _ _ _ _ _ _ E Hb).
Qed.

End Storage.

(* ===================================================================== *)
(** ** The claims on concrete runs *)
(* ===================================================================== *)

Lemma status_derivation_witness :
  obj_get "confidence_score"
          [("qualified", VBool true); ("confidence_score", VNum (num_of_Z 45))]
  = VNum (num_of_Z 45) /\
  obj_get "qualified"
          [("qualified", VBool true); ("confidence_score", VNum (num_of_Z 45))]
  = VBool true /\
  @derive_status (example_host false content_partial)
    (VObj [("qualified", VBool true); ("confidence_score", VNum (num_of_Z 45))])
  = Ok manual_review.
Proof.
  split; [reflexivity|]. split; [reflexivity|].
  apply (@status_derivation (example_host false content_partial)
           [("qualified", VBool true); ("confidence_score", VNum (num_of_Z 45))]
           45 true); reflexivity.
Defined.

Lemma mock_default_thresholds_witness :
  obj_get "max_monthly_income" default_rules = VStr "30000" /\
  obj_get "max_gwa" default_rules = VStr "3.0" /\
  get_path (@generateMockEvaluation (example_host true "") "GWA: 1.0" default_rules)
           ["qualified"] = Ok (VBool true) /\
  get_path (@generateMockEvaluation (example_host true "") "GWA: 1.0" default_rules)
           ["extracted_data"; "total_income"] = Ok (VNum (num_of_Z 25000)).
Proof.
  split; [reflexivity|]. split; [reflexivity|].
  pose proof (@mock_default_thresholds (example_host true "") "GWA: 1.0"
                default_rules eq_refl eq_refl) as (Hq & _ & _ & Ht & _).
  split; [exact Hq | exact Ht].
Defined.

Lemma mock_low_threshold_witness :
  obj_get "max_monthly_income" strict_rules = VStr "20000" /\
  get_path (@generateMockEvaluation (example_host true "") "GWA: 1.0" strict_rules)
           ["evaluation"; "income_check"; "passed"] = Ok (VBool false) /\
  get_path (@generateMockEvaluation (example_host true "") "GWA: 1.0" strict_rules)
           ["qualified"] = Ok (VBool false) /\
  obj_get "max_monthly_income" default_rules = VStr "30000" /\
  "30000" <> "" /\
  parseInt "30000" = num_of_Z 30000 /\
  get_path (@generateMockEvaluation (example_host true "") "GWA: 1.0" default_rules)
           ["evaluation"; "income_check"; "passed"] = Ok (VBool true).
Proof.
  split; [reflexivity|].
  pose proof (@mock_low_threshold (example_host true "") "GWA: 1.0"
                strict_rules) as (_ & _ & _ & _ & Hlow).
  destruct (Hlow eq_refl) as (_ & _ & Hp & Hq).
  split; [exact Hp|]. split; [exact Hq|].
  split; [reflexivity|]. split; [discriminate|]. split; [reflexivity|].
  pose proof (@mock_low_threshold (example_host true "") "GWA: 1.0"
                default_rules) as (_ & _ & _ & Hread & _).
  destruct (Hread "30000" 30000 eq_refl ltac:(discriminate) eq_refl)
    as (_ & Hpass & _).
  exact Hpass.
Defined.

Lemma mock_qualified_iff_both_passed_witness :
  @USE_MOCK_MODE (example_host true "") = true /\
  qualified_iff_both_passed
    (@generateMockEvaluation (example_host true "") "GWA: 1.0" strict_rules) /\
  (forall r,
     @evaluateWithAI (example_host true "") "GWA: 1.0" strict_rules None = Ok r ->
     qualified_iff_both_passed r).
Proof.
  split; [reflexivity|].
  pose proof (@mock_qualified_iff_both_passed (example_host true "") "GWA: 1.0"
                strict_rules) as [Hm Hai].
  split; [exact Hm | exact (Hai eq_refl None)].
Defined.

(** C3, as stated, fails outside mock mode: the engine answers with
    qualified = true and incomeCheck.passed = false, and the evaluator
    returns that answer. *)
Lemma ai_qualified_without_both_checks :
  @evaluateWithAI (example_host false content_unbalanced) "GWA: 2.5" default_rules None
  = Ok result_unbalanced /\
  get_path result_unbalanced ["qualified"] = Ok (VBool true) /\
  get_path result_unbalanced ["evaluation"; "income_check"; "passed"]
  = Ok (VBool false) /\
  ~ qualified_iff_both_passed result_unbalanced.
Proof.
  split; [reflexivity|]. split; [reflexivity|]. split; [reflexivity|].
  intros [Hq _]. destruct (Hq eq_refl) as [Hi _]. discriminate Hi.
Qed.

Lemma evaluateWithAI_returns_parsed_content_witness :
  @USE_MOCK_MODE (example_host false content_unbalanced) = false /\
  @GROQ_API_KEY (example_host false content_unbalanced) = Some "gsk_example" /\
  "gsk_example" <> "" /\
  @chat_completions_create (example_host false content_unbalanced)
    (@chat_request (example_host false content_unbalanced) "GWA: 2.5"
       default_rules None)
  = Ok content_unbalanced /\
  @evaluateWithAI (example_host false content_unbalanced) "GWA: 2.5" default_rules None
  = JSON_parse content_unbalanced.
Proof.
  split; [reflexivity|]. split; [reflexivity|]. split; [discriminate|].
  split; [reflexivity|].
  apply (@evaluateWithAI_returns_parsed_content
           (example_host false content_unbalanced) "gsk_example"
           "GWA: 2.5" default_rules None content_unbalanced);
    reflexivity || discriminate.
Defined.

(** C4, as stated, fails: an answer that lacks most of the schema is
    accepted, and the submission that carries it is stored as qualified. *)
Lemma ai_accepts_partial_result :
  @evaluateWithAI (example_host false content_partial) "GWA: 2.5" default_rules None
  = Ok result_partial /\
  schema_EvaluationResult result_partial = false /\
  exists row w,
    @submit (example_host false content_partial) example_request example_world
    = ({| status_code := 200; body := SuccessBody row |}, w) /\
    row_evaluation_result row = result_partial /\
    row_status row = qualified.
Proof.
  split; [reflexivity|]. split; [reflexivity|].
  eexists _, _. split; [vm_compute; reflexivity|]. split; reflexivity.
Qed.

Lemma mock_confidence_score_witness :
  @USE_MOCK_MODE (example_host true "") = true /\
  get_path (@generateMockEvaluation (example_host true "") "GWA: 1.0" strict_rules)
           ["confidence_score"] = Ok (VNum (num_of_Z 95)) /\
  (forall r,
     @evaluateWithAI (example_host true "") "GWA: 1.0" strict_rules None = Ok r ->
     get_path r ["confidence_score"] = Ok (VNum (num_of_Z 95))).
Proof.
  split; [reflexivity|].
  pose proof (@mock_confidence_score (example_host true "") "GWA: 1.0"
                strict_rules) as (Hm & _ & Hai).
  split; [exact Hm | exact (Hai eq_refl None)].
Defined.

(** C5, as stated, fails outside mock mode: the engine answers with a
    confidence score of 150, and the evaluator returns that answer. *)
Lemma ai_confidence_out_of_range :
  @evaluateWithAI (example_host false content_overconfident) "GWA: 2.5" default_rules None
  = Ok result_overconfident /\
  get_path result_overconfident ["confidence_score"]
  = Ok (VNum (num_of_Z 150)) /\
  score_in_range (VNum (num_of_Z 150)) = false.
Proof. repeat split. Qed.

(** C7 on the failing input: the three documents were uploaded and the
    mother's income is missing from the form.  The handler answers 400 and
    the three temp files are still there. *)
Theorem submit_without_income_keeps_temp_files :
  let '(response, w) :=
    @submit (example_host true "") request_without_income example_world in
  response = {| status_code := 400;
                body := ErrorBody "Both parent income values are required" |} /\
  w = example_world /\
  temp_files w !! "uploads/3f1a" = Some " Monthly income: 15000 " /\
  temp_files w !! "uploads/77c0" = Some "%PDF-1.4" /\
  temp_files w !! "uploads/a9d2" = Some "PNG".
Proof. repeat split. Qed.

(** The same upload with both incomes: the submission succeeds and the
    three temp files are deleted. *)
Example submit_with_income_deletes_temp_files :
  let '(response, w) :=
    @submit (example_host true "") example_request example_world in
  status_code response = 200 /\
  temp_files w = ∅ /\
  map contentType (bucket w) = ["application/pdf"; "application/pdf"; "image/png"].
Proof. vm_compute. repeat split. Qed.

Lemma plain_text_stored_as_pdf_witness :
  files example_request
  = Some {| mother_certificate :=
              Some {| originalname := "mother.txt"; mimetype := "text/plain";
                      path := "uploads/3f1a" |};
            father_certificate :=
              Some {| originalname := "father.pdf"; mimetype := "application/pdf";
                      path := "uploads/77c0" |};
            report_card :=
              Some {| originalname := "report.png"; mimetype := "image/png";
                      path := "uploads/a9d2" |} |} /\
  falsy_field (mother_income example_request) = false /\
  falsy_field (father_income example_request) = false /\
  temp_files example_world !! "uploads/3f1a" = Some " Monthly income: 15000 " /\
  temp_files example_world !! "uploads/77c0" = Some "%PDF-1.4" /\
  temp_files example_world !! "uploads/a9d2" = Some "PNG" /\
  bucket (@submit (example_host true "") example_request example_world).2
  = [ {| object_path := "documents/u1/mother_income_1700000000000_mother.txt";
         object_body := " Monthly income: 15000 ";
         contentType := "application/pdf" |};
      {| object_path := "documents/u1/father_income_1700000000000_father.pdf";
         object_body := "%PDF-1.4";
         contentType := "application/pdf" |};
      {| object_path := "documents/u1/report_1700000000000_report.png";
         object_body := "PNG";
         contentType := "image/png" |} ].
Proof.
  split; [reflexivity|]. split; [reflexivity|]. split; [reflexivity|].
  split; [reflexivity|]. split; [reflexivity|]. split; [reflexivity|].
  destruct (@plain_text_stored_as_pdf (example_host true "") example_request
              example_world _ _ _ eq_refl)
    as (n & stored & Hb & _ & _ & Hadd).
  destruct (Hadd eq_refl eq_refl " Monthly income: 15000 " eq_refl eq_refl)
    as [_ Hfather].
  destruct (Hfather "%PDF-1.4" eq_refl eq_refl) as [_ Hreport].
  rewrite Hb, (Hreport "PNG" eq_refl eq_refl). reflexivity.
Defined.

Lemma extractText_falls_through_to_ocr_witness :
  Some "application/zip" <> Some "text/plain" /\
  Some "application/zip" <> Some "application/pdf" /\
  @extractText (example_host true "") (temp_files example_world)
    (Some "uploads/a9d2") (Some "application/zip")
  = Ok "GWA: 2.5".
Proof.
  split; [discriminate|]. split; [discriminate|].
  apply (@extractText_falls_through_to_ocr (example_host true "")
           (temp_files example_world) (Some "uploads/a9d2")
           (Some "application/zip")); discriminate.
Defined.
